(** * uni20: the Python binding consumers

    A shallow embedding of the three Python files of the repository,

      - [examples/python_buildinfo_example.py]  (module [Example]),
      - [tests/python/test_buildinfo.py]        (module [TestBuildinfo]),
      - [tests/python/test_greet.py]            (module [TestGreet]),

    and the properties of the metadata checks, of the path injection and of
    the greeting probe.

    Python values are an inductive type, a [dict] is an insertion-ordered
    association list, exceptions are an error monad ([res]), and the
    interpreter state the scripts touch ([sys.argv], [sys.path], standard
    output, the imports performed) is threaded explicitly ([prog]).  An
    [AssertionError] carries the source line of the failing assertion. *)

From Stdlib Require Import ZArith List String Bool Lia Permutation.
Import ListNotations.
Open Scope string_scope.

(* ================================================================== *)
(** * Python values *)

(** Hashable scalars that can be dictionary keys.  A [bool] key hashes and
    compares as the integer 0 or 1, so it is a [KInt] here. *)
Inductive PyKey : Type :=
| KNone
| KInt (z : Z)
| KStr (s : string).

#[local] Set Warnings "-register-all".
Inductive PyVal : Type :=
| PNone
| PBool (b : bool)
| PInt (z : Z)
| PStr (s : string)
| PList (l : list PyVal)
| PDict (d : list (PyKey * PyVal)).

(** The content of a [dict]: its items in insertion order.  A Python [dict]
    holds no two items with equal keys; lookup takes the first item with the
    key, and no property below needs the keys to be distinct. *)
Definition dict : Type := list (PyKey * PyVal).

(** The classes the code names in [isinstance] checks, and the others of
    the value model. *)
Inductive PyType : Type :=
| TNoneType | Tbool | Tint | Tstr | Tlist | Tdict.

Definition key_eqb (a b : PyKey) : bool :=
  match a, b with
  | KNone, KNone => true
  | KInt x, KInt y => Z.eqb x y
  | KStr s, KStr t => String.eqb s t
  | _, _ => false
  end.

Definition key_val (k : PyKey) : PyVal :=
  match k with
  | KNone => PNone
  | KInt z => PInt z
  | KStr s => PStr s
  end.

Definition type_of (v : PyVal) : PyType :=
  match v with
  | PNone => TNoneType
  | PBool _ => Tbool
  | PInt _ => Tint
  | PStr _ => Tstr
  | PList _ => Tlist
  | PDict _ => Tdict
  end.

Definition type_eqb (a b : PyType) : bool :=
  match a, b with
  | TNoneType, TNoneType | Tbool, Tbool | Tint, Tint
  | Tstr, Tstr | Tlist, Tlist | Tdict, Tdict => true
  | _, _ => false
  end.

(** [isinstance(v, cls)]: [bool] is a subclass of [int]. *)
Definition isinstance (v : PyVal) (cls : PyType) : bool :=
  type_eqb (type_of v) cls ||
  match type_of v, cls with
  | Tbool, Tint => true
  | _, _ => false
  end.

(** [bool(v)], the truth value that [assertTrue] and [or] test. *)
Definition truthy (v : PyVal) : bool :=
  match v with
  | PNone => false
  | PBool b => b
  | PInt z => negb (Z.eqb z 0)
  | PStr s => negb (String.eqb s "")
  | PList l => match l with [] => false | _ => true end
  | PDict d => match d with [] => false | _ => true end
  end.

(** Dictionary lookup: the value bound to the first item with key [k]. *)
Fixpoint dict_get (k : PyKey) (d : dict) : option PyVal :=
  match d with
  | [] => None
  | (k', v) :: d' => if key_eqb k k' then Some v else dict_get k d'
  end.

Definition dict_mem (k : PyKey) (d : dict) : bool :=
  match dict_get k d with Some _ => true | None => false end.

(** [d[k] = v]: rebinds [k] in place, or appends a new item. *)
Fixpoint dict_set (k : PyKey) (v : PyVal) (d : dict) : dict :=
  match d with
  | [] => [(k, v)]
  | (k', v') :: d' =>
      if key_eqb k k' then (k', v) :: d' else (k', v') :: dict_set k v d'
  end.

Definition int_of (v : PyVal) : option Z :=
  match v with
  | PBool b => Some (if b then 1%Z else 0%Z)
  | PInt z => Some z
  | _ => None
  end.

(** [a == b] on the value model: numbers compare by value ([True == 1]),
    strings by content, lists pointwise, dictionaries as sets of items. *)
Fixpoint py_eq (a b : PyVal) {struct a} : bool :=
  match a, b with
  | PNone, PNone => true
  | PBool _, _ | PInt _, _ =>
      match int_of a, int_of b with
      | Some x, Some y => Z.eqb x y
      | _, _ => false
      end
  | PStr s, PStr t => String.eqb s t
  | PList l, PList m =>
      (fix go (l m : list PyVal) {struct l} : bool :=
         match l, m with
         | [], [] => true
         | x :: l', y :: m' => py_eq x y && go l' m'
         | _, _ => false
         end) l m
  | PDict d, PDict e =>
      Nat.eqb (List.length d) (List.length e) &&
      (fix go (d : dict) {struct d} : bool :=
         match d with
         | [] => true
         | (k, v) :: d' =>
             match dict_get k e with
             | Some w => py_eq v w && go d'
             | None => false
             end
         end) d
  | _, _ => false
  end.

(** [sub in s] for strings. *)
Fixpoint str_contains (sub s : string) : bool :=
  if String.prefix sub s then true
  else match s with
       | EmptyString => false
       | String _ s' => str_contains sub s'
       end.

(* ================================================================== *)
(** * Exceptions *)

Inductive exn : Type :=
| AssertionError (line : nat)
| KeyError (k : PyKey)
| IndexError
| TypeError
| AttributeError (attr : string)
| ModuleNotFoundError (name : string)
| SkipTest (msg : string).

Inductive res (A : Type) : Type :=
| Ok (a : A)
| Raise (e : exn).
Arguments Ok {A} a.
Arguments Raise {A} e.

Definition rbind {A B} (r : res A) (k : A -> res B) : res B :=
  match r with
  | Ok a => k a
  | Raise e => Raise e
  end.

Declare Scope res_scope.
Delimit Scope res_scope with res.
Notation "x <- r ;; k" := (rbind r (fun x => k))
  (at level 61, r at next level, right associativity) : res_scope.
Notation "r ;; k" := (rbind r (fun _ => k))
  (at level 61, right associativity) : res_scope.

(** A [for] loop whose body may raise: the first exception ends it. *)
Fixpoint for_each {A} (l : list A) (body : A -> res unit) : res unit :=
  match l with
  | [] => Ok tt
  | x :: l' => rbind (body x) (fun _ => for_each l' body)
  end.

(** ** Operations on values that can raise *)

(** [v[k]]: a key of a [dict], an index into a [list] or a [str]. *)
Definition py_getitem (v : PyVal) (k : PyKey) : res PyVal :=
  match v with
  | PDict d =>
      match dict_get k d with
      | Some x => Ok x
      | None => Raise (KeyError k)
      end
  | PList l =>
      match k with
      | KInt i =>
          let n := Z.of_nat (List.length l) in
          let j := if (i <? 0)%Z then (i + n)%Z else i in
          if ((0 <=? j) && (j <? n))%Z
          then match nth_error l (Z.to_nat j) with
               | Some x => Ok x
               | None => Raise IndexError
               end
          else Raise IndexError
      | _ => Raise TypeError
      end
  | PStr s =>
      match k with
      | KInt i =>
          let n := Z.of_nat (String.length s) in
          let j := if (i <? 0)%Z then (i + n)%Z else i in
          if ((0 <=? j) && (j <? n))%Z
          then match String.get (Z.to_nat j) s with
               | Some c => Ok (PStr (String c EmptyString))
               | None => Raise IndexError
               end
          else Raise IndexError
      | _ => Raise TypeError
      end
  | _ => Raise TypeError
  end.

(** [k in v] *)
Definition py_contains (v : PyVal) (k : PyKey) : res bool :=
  match v with
  | PDict d => Ok (dict_mem k d)
  | PList l => Ok (existsb (py_eq (key_val k)) l)
  | PStr s =>
      match k with
      | KStr sub => Ok (str_contains sub s)
      | _ => Raise TypeError
      end
  | _ => Raise TypeError
  end.

(** [v.get(k)], a method of [dict] only; the default is [None]. *)
Definition py_get (v : PyVal) (k : PyKey) : res PyVal :=
  match v with
  | PDict d =>
      Ok (match dict_get k d with Some x => x | None => PNone end)
  | _ => Raise (AttributeError "get")
  end.

(** [v.items()] *)
Definition py_items (v : PyVal) : res dict :=
  match v with
  | PDict d => Ok d
  | _ => Raise (AttributeError "items")
  end.

(** [v.keys()] *)
Definition py_keys (v : PyVal) : res (list PyKey) :=
  match v with
  | PDict d => Ok (map fst d)
  | _ => Raise (AttributeError "keys")
  end.

(** [set(ks).issubset(view)] for a set of string literals. *)
Definition issubset (ks : list string) (view : list PyKey) : bool :=
  forallb (fun k => existsb (key_eqb (KStr k)) view) ks.

(** ** [unittest.TestCase] assertions, tagged with their source line *)

Definition assertTrue (line : nat) (v : PyVal) : res unit :=
  if truthy v then Ok tt else Raise (AssertionError line).

Definition assertIsInstance (line : nat) (v : PyVal) (cls : PyType) : res unit :=
  if isinstance v cls then Ok tt else Raise (AssertionError line).

Definition assertIn (line : nat) (k : PyKey) (container : PyVal) : res unit :=
  rbind (py_contains container k)
        (fun b => if b then Ok tt else Raise (AssertionError line)).

Definition assertEqual (line : nat) (first second : PyVal) : res unit :=
  if py_eq first second then Ok tt else Raise (AssertionError line).

(* ================================================================== *)
(** * The external binding module *)

(** What a loaded binding module offers: for each entry point, [None] when
    the attribute does not exist, otherwise the outcome of calling it. *)
Record PyModule : Type := {
  attr_buildinfo : option (res PyVal);
  attr_greet : option (res PyVal)
}.

Definition call_attr (name : string) (a : option (res PyVal)) : res PyVal :=
  match a with
  | Some r => r
  | None => Raise (AttributeError name)
  end.

Definition call_buildinfo (m : PyModule) : res PyVal :=
  call_attr "buildinfo" (attr_buildinfo m).

Definition call_greet (m : PyModule) : res PyVal :=
  call_attr "greet" (attr_greet m).

(* ================================================================== *)
(** * The interpreter state the scripts touch *)

(** What the scripts take from outside the repository: [pathlib]'s
    [str(Path(p).resolve())], the absolute form of [p] with symbolic links
    followed; the import system (which module, if any, a name is bound to
    under a given search path); and [pprint]'s formatting ([pprint.pp]
    writes [pformat v] with [sort_dicts=False]). *)
Record Env : Type := {
  resolve : string -> string;
  find_module : list string -> string -> option PyModule;
  pformat : PyVal -> string
}.

(** An import attempt, with the [sys.path] and [sys.argv] in force when it
    was made. *)
Record Import : Type := {
  imp_name : string;
  imp_path : list string;
  imp_argv : list string
}.

Record State : Type := {
  argv : list string;        (* sys.argv *)
  sys_path : list string;    (* sys.path *)
  stdout : list string;      (* what was printed, oldest first *)
  imports : list Import      (* the import attempts, oldest first *)
}.

(** A statement: it ends normally or raises, and either way leaves a state. *)
Definition prog (A : Type) : Type := State -> res A * State.

Definition ret {A} (a : A) : prog A := fun st => (Ok a, st).

Definition raise {A} (e : exn) : prog A := fun st => (Raise e, st).

Definition bind {A B} (p : prog A) (k : A -> prog B) : prog B :=
  fun st =>
    match p st with
    | (Ok a, st') => k a st'
    | (Raise e, st') => (Raise e, st')
    end.

Declare Scope prog_scope.
Delimit Scope prog_scope with prog.
Notation "x <- p ;; k" := (bind p (fun x => k))
  (at level 61, p at next level, right associativity) : prog_scope.
Notation "p ;; k" := (bind p (fun _ => k))
  (at level 61, right associativity) : prog_scope.

(** [len(sys.argv)] *)
Definition len_argv : prog nat :=
  fun st => (Ok (List.length (argv st)), st).

(** [sys.argv[i]] *)
Definition argv_at (i : nat) : prog string :=
  fun st =>
    match nth_error (argv st) i with
    | Some a => (Ok a, st)
    | None => (Raise IndexError, st)
    end.

(** [l.insert(i, x)] for [0 <= i]: past the end it appends. *)
Definition list_insert {A} (i : nat) (x : A) (l : list A) : list A :=
  firstn i l ++ x :: skipn i l.

(** [sys.path.insert(i, dir)] *)
Definition sys_path_insert (i : nat) (dir : string) : prog unit :=
  fun st =>
    (Ok tt, {| argv := argv st;
               sys_path := list_insert i dir (sys_path st);
               stdout := stdout st;
               imports := imports st |}).

(** [sys.argv = l] *)
Definition set_argv (l : list string) : prog unit :=
  fun st =>
    (Ok tt, {| argv := l;
               sys_path := sys_path st;
               stdout := stdout st;
               imports := imports st |}).

(** What importing [name] under the search path [path] gives. *)
Definition lookup_module (env : Env) (path : list string) (name : string)
  : res PyModule :=
  match find_module env path name with
  | Some m => Ok m
  | None => Raise (ModuleNotFoundError name)
  end.

(** [importlib.import_module(name)] and the [import name] statement: the
    attempt is recorded, then the module is found or the import raises. *)
Definition import_module (env : Env) (name : string) : prog PyModule :=
  fun st =>
    let st' := {| argv := argv st;
                  sys_path := sys_path st;
                  stdout := stdout st;
                  imports := imports st ++
                             [ {| imp_name := name;
                                  imp_path := sys_path st;
                                  imp_argv := argv st |} ] |} in
    (lookup_module env (sys_path st) name, st').

(** [pprint.pp(v)] *)
Definition pprint_pp (env : Env) (v : PyVal) : prog unit :=
  fun st =>
    (Ok tt, {| argv := argv st;
               sys_path := sys_path st;
               stdout := stdout st ++ [pformat env v];
               imports := imports st |}).

(** A computation that does not touch the state. *)
Definition lift {A} (r : res A) : prog A := fun st => (r, st).

(* ================================================================== *)
(** * examples/python_buildinfo_example.py *)

Module Example.

Local Open Scope prog_scope.

(** Lines 11-22. *)
Definition main (env : Env) : prog unit :=
  n <- len_argv ;;
  (if (1 <? n)%nat then
     a1 <- argv_at 1 ;;
     let bindings_dir := resolve env a1 in
     sys_path_insert 0 bindings_dir
   else ret tt) ;;
  uni20 <- import_module env "uni20" ;;
  info <- lift (call_buildinfo uni20) ;;
  pprint_pp env info.

End Example.

(* ================================================================== *)
(** * tests/python/test_buildinfo.py: the metadata checks *)

Module TestBuildinfo.

(** Lines 12-20. *)
Definition _load_module (env : Env) : prog PyModule :=
  (n <- len_argv ;;
   if (n <? 2)%nat then raise (SkipTest "Bindings output directory not provided")
   else
     a1 <- argv_at 1 ;;
     let bindings_dir := resolve env a1 in
     sys_path_insert 0 bindings_dir ;;
     a0 <- argv_at 0 ;;
     set_argv [a0] ;;
     import_module env "uni20")%prog.

Local Open Scope res_scope.

(** Lines 34-43.  The source builds a [set]; its iteration order is not
    fixed by the language, so the loop below is also stated for any order
    ([required_fields_in]). *)
Definition expected_keys : list string :=
  [ "generator"; "build_type"; "system_name"; "system_version";
    "system_processor"; "cxx_compiler_id"; "cxx_compiler_version";
    "cxx_compiler_path" ].

(** Lines 47-48, the body of the loop over [expected_keys]. *)
Definition check_field (info : PyVal) (key : string) : res unit :=
  v <- py_getitem info (KStr key) ;;
  assertIsInstance 47 v Tstr ;;
  v <- py_getitem info (KStr key) ;;
  assertTrue 48 v.

(** Lines 45-48, iterating [expected_keys] in the order [order]. *)
Definition required_fields_in (order : list string) (info : PyVal) : res unit :=
  view <- py_keys info ;;
  assertTrue 45 (PBool (issubset expected_keys view)) ;;
  for_each order (check_field info).

Definition required_fields (info : PyVal) : res unit :=
  required_fields_in expected_keys info.

(** Lines 56-62, the body of the loop over [info[collection].items()]. *)
Definition check_entry (option_name : PyKey) (metadata : PyVal) : res unit :=
  assertIsInstance 56 (key_val option_name) Tstr ;;
  assertIsInstance 57 metadata Tdict ;;
  assertIn 58 (KStr "value") metadata ;;
  v <- py_getitem metadata (KStr "value") ;;
  assertIsInstance 59 v Tstr ;;
  v <- py_getitem metadata (KStr "value") ;;
  x <- (if truthy v then Ok v else py_get metadata (KStr "help")) ;;
  assertTrue 60 x ;;
  has_help <- py_contains metadata (KStr "help") ;;
  if has_help : bool then
    h <- py_getitem metadata (KStr "help") ;;
    assertIsInstance 62 h Tstr
  else Ok tt.

(** Lines 51-62, the body of the loop over the two collections. *)
Definition check_collection (info : PyVal) (collection : string) : res unit :=
  assertIn 51 (KStr collection) info ;;
  c <- py_getitem info (KStr collection) ;;
  assertIsInstance 52 c Tdict ;;
  c <- py_getitem info (KStr collection) ;;
  assertTrue 53 c ;;
  c <- py_getitem info (KStr collection) ;;
  items <- py_items c ;;
  for_each items (fun item => check_entry (fst item) (snd item)).

Definition collections : list string :=
  [ "build_options"; "detected_environment" ].

(** Lines 32-62: everything the test does with the value of [buildinfo()]. *)
Definition check_info (info : PyVal) : res unit :=
  assertIsInstance 32 info Tdict ;;
  required_fields info ;;
  for_each collections (check_collection info).

(** Lines 29-62, run against the loaded module [_UNI20_MODULE]. *)
Definition test_buildinfo_reports_metadata (_UNI20_MODULE : PyModule) : res unit :=
  info <- call_buildinfo _UNI20_MODULE ;;
  check_info info.

(** Lines 32-62 and 29-62 once more, with the set [expected_keys] iterated
    in the order [order] (line 46): the language does not fix that order,
    and it can change from one interpreter run to the next. *)
Definition check_info_in (order : list string) (info : PyVal) : res unit :=
  assertIsInstance 32 info Tdict ;;
  required_fields_in order info ;;
  for_each collections (check_collection info).

Definition test_buildinfo_in (order : list string) (_UNI20_MODULE : PyModule)
  : res unit :=
  info <- call_buildinfo _UNI20_MODULE ;;
  check_info_in order info.

(** Lines 23 and 65-66, the file run as a script: the module body binds
    [_UNI20_MODULE] to what [_load_module()] returns and only then calls
    [unittest.main()], which runs the test method of the class, closed over
    that binding.  [unittest.main] is the library's: it is given the named
    test with its outcome.  An exception raised at line 23 leaves the script
    before [unittest.main] is reached. *)
Definition run_as_script
           (env : Env) (unittest_main : list (string * res unit) -> prog unit)
  : prog unit :=
  (_UNI20_MODULE <- _load_module env ;;
   unittest_main [ ("test_buildinfo_reports_metadata",
                    test_buildinfo_reports_metadata _UNI20_MODULE) ])%prog.

End TestBuildinfo.

(* ================================================================== *)
(** * tests/python/test_greet.py: the greeting probe *)

Module TestGreet.

(** Lines 12-20. *)
Definition _load_module (env : Env) : prog PyModule :=
  (n <- len_argv ;;
   if (n <? 2)%nat then raise (SkipTest "Bindings output directory not provided")
   else
     a1 <- argv_at 1 ;;
     let bindings_dir := resolve env a1 in
     sys_path_insert 0 bindings_dir ;;
     a0 <- argv_at 0 ;;
     set_argv [a0] ;;
     import_module env "uni20_python")%prog.

Local Open Scope res_scope.

(** Lines 29-30. *)
Definition test_greet_returns_expected_message (_UNI20_MODULE : PyModule) : res unit :=
  g <- call_greet _UNI20_MODULE ;;
  assertEqual 30 g (PStr "Hello from uni20!").

(** Lines 23 and 33-34, the file run as a script (see
    [TestBuildinfo.run_as_script]). *)
Definition run_as_script
           (env : Env) (unittest_main : list (string * res unit) -> prog unit)
  : prog unit :=
  (_UNI20_MODULE <- _load_module env ;;
   unittest_main [ ("test_greet_returns_expected_message",
                    test_greet_returns_expected_message _UNI20_MODULE) ])%prog.

End TestGreet.

(* ================================================================== *)
(** * Generic facts: the error monad, loops, dictionaries *)

Lemma rbind_ok {A B} (r : res A) (k : A -> res B) (b : B) :
  rbind r k = Ok b <-> exists a, r = Ok a /\ k a = Ok b.
Proof.
  destruct r as [a|e]; simpl; split.
  - intros H; exists a; auto.
  - intros [a' [Ha Hk]]; inversion Ha; subst; assumption.
  - discriminate.
  - intros [a' [Ha _]]; discriminate.
Qed.

(** The outcome of a check that can only end normally or by a failed
    assertion at one of the given source lines. *)
Definition asserts_at (lines : list nat) (r : res unit) : Prop :=
  r = Ok tt \/ exists line, In line lines /\ r = Raise (AssertionError line).

Lemma asserts_at_ok lines : asserts_at lines (Ok tt).
Proof. left; reflexivity. Qed.

Lemma asserts_at_fail lines line :
  In line lines -> asserts_at lines (Raise (AssertionError line)).
Proof. intros H; right; exists line; auto. Qed.

Lemma asserts_at_incl lines lines' r :
  incl lines lines' -> asserts_at lines r -> asserts_at lines' r.
Proof.
  intros Hi [H | [line [Hl H]]]; [left; assumption | right].
  exists line; split; [apply Hi; assumption | assumption].
Qed.

Lemma asserts_at_bind lines (r : res unit) (k : unit -> res unit) :
  asserts_at lines r -> asserts_at lines (k tt) -> asserts_at lines (rbind r k).
Proof.
  intros [H | [line [Hl H]]] Hk; subst r; simpl.
  - assumption.
  - apply asserts_at_fail; assumption.
Qed.

Lemma asserts_at_not_ok lines r :
  asserts_at lines r -> r <> Ok tt ->
  exists line, In line lines /\ r = Raise (AssertionError line).
Proof. intros [H | H] Hn; [contradiction | assumption]. Qed.

Lemma for_each_ok {A} (l : list A) (body : A -> res unit) :
  for_each l body = Ok tt <-> forall x, In x l -> body x = Ok tt.
Proof.
  induction l as [|x l IH]; simpl.
  - split; [intros _ y [] | reflexivity].
  - rewrite rbind_ok. split.
    + intros [[] [Hx Hl]] y [<- | Hy]; [assumption | apply IH; assumption].
    + intros H. exists tt. split; [apply H; left; reflexivity |].
      apply IH. intros y Hy. apply H. right. assumption.
Qed.

Lemma for_each_asserts {A} lines (l : list A) (body : A -> res unit) :
  (forall x, In x l -> asserts_at lines (body x)) ->
  asserts_at lines (for_each l body).
Proof.
  induction l as [|x l IH]; simpl; intros H.
  - apply asserts_at_ok.
  - apply asserts_at_bind; [apply H; left; reflexivity |].
    apply IH. intros y Hy. apply H. right. assumption.
Qed.

Lemma for_each_ext {A} (l : list A) (f g : A -> res unit) :
  (forall x, In x l -> f x = g x) -> for_each l f = for_each l g.
Proof.
  induction l as [|x l IH]; simpl; intros H; [reflexivity |].
  rewrite (H x (or_introl eq_refl)), IH; [reflexivity |].
  intros y Hy. apply H. right. assumption.
Qed.

Lemma key_eqb_eq (a b : PyKey) : key_eqb a b = true <-> a = b.
Proof.
  destruct a, b; simpl; split; intros H;
    try discriminate; try reflexivity.
  - apply Z.eqb_eq in H. subst. reflexivity.
  - inversion H. apply Z.eqb_refl.
  - apply String.eqb_eq in H. subst. reflexivity.
  - inversion H. apply String.eqb_refl.
Qed.

Lemma key_eqb_refl (a : PyKey) : key_eqb a a = true.
Proof. apply key_eqb_eq. reflexivity. Qed.

Lemma key_eqb_neq (a b : PyKey) : a <> b -> key_eqb a b = false.
Proof.
  intros H. destruct (key_eqb a b) eqn:E; [|reflexivity].
  apply key_eqb_eq in E. contradiction.
Qed.

Lemma existsb_keys_mem (k : PyKey) (d : dict) :
  existsb (key_eqb k) (map fst d) = dict_mem k d.
Proof.
  unfold dict_mem. induction d as [|[k' v] d IH]; simpl; [reflexivity |].
  destruct (key_eqb k k'); simpl; [reflexivity | assumption].
Qed.

Lemma issubset_mem (ks : list string) (d : dict) :
  issubset ks (map fst d) = forallb (fun k => dict_mem (KStr k) d) ks.
Proof.
  unfold issubset. induction ks as [|k ks IH]; simpl; [reflexivity |].
  rewrite existsb_keys_mem, IH. reflexivity.
Qed.

Lemma dict_get_set_other (k k' : PyKey) (v : PyVal) (d : dict) :
  k' <> k -> dict_get k' (dict_set k v d) = dict_get k' d.
Proof.
  intros Hne. induction d as [|[k0 v0] d IH]; simpl.
  - rewrite key_eqb_neq by assumption. reflexivity.
  - destruct (key_eqb k k0) eqn:E; simpl.
    + apply key_eqb_eq in E. subst k0.
      rewrite key_eqb_neq by assumption. reflexivity.
    + rewrite IH. reflexivity.
Qed.

Lemma dict_get_set_same (k : PyKey) (v : PyVal) (d : dict) :
  dict_get k (dict_set k v d) = Some v.
Proof.
  induction d as [|[k0 v0] d IH]; simpl.
  - rewrite key_eqb_refl. reflexivity.
  - destruct (key_eqb k k0) eqn:E; simpl; rewrite E; [reflexivity | assumption].
Qed.

(** What [isinstance(v, str)] followed by [assertTrue(v)] establishes. *)
Lemma isinstance_str (v : PyVal) :
  isinstance v Tstr = true <-> exists s, v = PStr s.
Proof.
  split.
  - destruct v; simpl; try discriminate. intros _. eexists; reflexivity.
  - intros [s ->]. reflexivity.
Qed.

Lemma isinstance_dict (v : PyVal) :
  isinstance v Tdict = true <-> exists d, v = PDict d.
Proof.
  split.
  - destruct v; simpl; try discriminate. intros _. eexists; reflexivity.
  - intros [s ->]. reflexivity.
Qed.

Lemma truthy_str (s : string) : truthy (PStr s) = true <-> s <> "".
Proof.
  simpl. rewrite negb_true_iff. split.
  - intros H Hs. subst. discriminate.
  - intros H. destruct (String.eqb s "") eqn:E; [|reflexivity].
    apply String.eqb_eq in E. contradiction.
Qed.

Lemma truthy_dict (d : dict) : truthy (PDict d) = true <-> d <> [].
Proof.
  destruct d; simpl; split; intros H; congruence.
Qed.

(* ================================================================== *)
(** * The required string fields (lines 45-48) *)

Import TestBuildinfo.

(** The field [k] of the mapping is present and bound to a non-empty
    string. *)
Definition field_ok (d : dict) (k : string) : Prop :=
  exists s, dict_get (KStr k) d = Some (PStr s) /\ s <> "".

Lemma check_field_ok (d : dict) (key : string) :
  check_field (PDict d) key = Ok tt <-> field_ok d key.
Proof.
  unfold check_field, field_ok, py_getitem.
  destruct (dict_get (KStr key) d) as [v|]; simpl.
  - destruct v; simpl; try (split; [discriminate | intros [s' [H _]]; discriminate]).
    unfold assertTrue. split.
    + intros H. exists s. split; [reflexivity |].
      apply truthy_str. destruct (truthy (PStr s)); [reflexivity | discriminate].
    + intros [s' [H Hs]]. inversion H; subst s'.
      apply truthy_str in Hs. rewrite Hs. reflexivity.
  - split; [discriminate | intros [s [H _]]; discriminate].
Qed.

Lemma check_field_asserts (d : dict) (key : string) :
  dict_mem (KStr key) d = true ->
  asserts_at [47; 48] (check_field (PDict d) key).
Proof.
  unfold dict_mem, check_field, py_getitem.
  destruct (dict_get (KStr key) d) as [v|]; [intros _ | discriminate].
  simpl. unfold assertIsInstance.
  destruct (isinstance v Tstr); simpl.
  - unfold assertTrue. destruct (truthy v).
    + apply asserts_at_ok.
    + apply asserts_at_fail. simpl; auto.
  - apply asserts_at_fail. simpl; auto.
Qed.

Lemma required_fields_in_ok (order : list string) (d : dict) :
  required_fields_in order (PDict d) = Ok tt <->
  (forall k, In k expected_keys -> dict_mem (KStr k) d = true) /\
  (forall k, In k order -> field_ok d k).
Proof.
  unfold required_fields_in. simpl py_keys. cbn [rbind].
  rewrite issubset_mem. unfold assertTrue. cbn [truthy].
  destruct (forallb (fun k => dict_mem (KStr k) d) expected_keys) eqn:E.
  - cbn [rbind]. rewrite for_each_ok.
    rewrite forallb_forall in E. split.
    + intros H. split; [assumption |].
      intros k Hk. apply check_field_ok. apply H. assumption.
    + intros [_ H] k Hk. apply check_field_ok. apply H. assumption.
  - cbn [rbind]. split; [discriminate |].
    intros [H _]. apply forallb_forall in H. congruence.
Qed.

Lemma required_fields_in_asserts (order : list string) (d : dict) :
  incl order expected_keys ->
  asserts_at [45; 47; 48] (required_fields_in order (PDict d)).
Proof.
  intros Hincl. unfold required_fields_in. simpl py_keys. cbn [rbind].
  rewrite issubset_mem. unfold assertTrue. cbn [truthy].
  destruct (forallb (fun k => dict_mem (KStr k) d) expected_keys) eqn:E;
    cbn [rbind].
  - rewrite forallb_forall in E. apply for_each_asserts.
    intros k Hk. apply asserts_at_incl with (lines := [47; 48]).
    + intros x [<- | [<- | []]]; simpl; auto.
    + apply check_field_asserts. apply E. apply Hincl. assumption.
  - apply asserts_at_fail. simpl; auto.
Qed.

Lemma field_ok_mem (d : dict) (k : string) :
  field_ok d k -> dict_mem (KStr k) d = true.
Proof. intros [s [H _]]. unfold dict_mem. rewrite H. reflexivity. Qed.

Lemma required_fields_ok (d : dict) :
  required_fields (PDict d) = Ok tt <->
  forall k, In k expected_keys -> field_ok d k.
Proof.
  unfold required_fields. rewrite required_fields_in_ok. split.
  - intros [_ H]. assumption.
  - intros H. split; [|assumption].
    intros k Hk. apply field_ok_mem. apply H. assumption.
Qed.

(** The verdict of lines 45-48 does not depend on the order in which the
    set [expected_keys] is iterated. *)
Lemma required_fields_any_order (order : list string) (info : PyVal) :
  Permutation order expected_keys ->
  (required_fields_in order info = Ok tt <-> required_fields info = Ok tt).
Proof.
  intros Hp. destruct info as [| | | | |d];
    try (unfold required_fields, required_fields_in; simpl; split; discriminate).
  rewrite required_fields_ok, required_fields_in_ok. split.
  - intros [_ H] k Hk. apply H.
    apply Permutation_in with (l := expected_keys); [symmetry|]; assumption.
  - intros H. split.
    + intros k Hk. apply field_ok_mem. apply H. assumption.
    + intros k Hk. apply H.
      apply Permutation_in with (l := order); assumption.
Qed.

(* ================================================================== *)
(** * The entries of the two collections (lines 56-62) *)

(** What lines 56-62 accept: the option name is a string, the metadata is a
    [dict] whose [value] is a string, a [help] that is present is a string,
    and [value] or [help] is a non-empty string. *)
Definition entry_ok (option_name : PyKey) (metadata : PyVal) : Prop :=
  (exists n, option_name = KStr n) /\
  exists d v,
    metadata = PDict d /\
    dict_get (KStr "value") d = Some (PStr v) /\
    (dict_get (KStr "help") d = None \/
     exists h, dict_get (KStr "help") d = Some (PStr h)) /\
    (v <> "" \/
     exists h, dict_get (KStr "help") d = Some (PStr h) /\ h <> "").

(** The condition as the specification words it: a mapping with a [value]
    string, and [value] non-empty or [help] present and a non-empty
    string. *)
Definition spec_entry_ok (metadata : PyVal) : Prop :=
  exists d v,
    metadata = PDict d /\
    dict_get (KStr "value") d = Some (PStr v) /\
    (v <> "" \/
     exists h, dict_get (KStr "help") d = Some (PStr h) /\ h <> "").

Definition entry_lines : list nat := [56; 57; 58; 59; 60; 62].

Ltac entry_cases name md :=
  unfold check_entry, assertTrue, assertIsInstance, assertIn;
  destruct name as [| z | n]; cbn;
  [ | | destruct md as [| b | z | s | l | d]; cbn;
        [ | | | | |
          unfold dict_mem;
          destruct (dict_get (KStr "value") d) as [v|] eqn:Hvalue; cbn;
          [ destruct v as [| b | z | v | l | e]; cbn;
            [ | | |
              destruct (String.eqb v "") eqn:Hempty; cbn;
              destruct (dict_get (KStr "help") d) as [h|] eqn:Hhelp; cbn;
              [ destruct h as [| b | z | h | l | e]; cbn;
                try destruct (String.eqb h "") eqn:Hh; cbn
              |
              | destruct h as [| b | z | h | l | e]; cbn
              | ]
            | | ]
          | ] ] ].

Lemma check_entry_asserts (option_name : PyKey) (metadata : PyVal) :
  asserts_at entry_lines (check_entry option_name metadata).
Proof.
  entry_cases option_name metadata;
    repeat match goal with
           | |- context [if ?c then _ else _] => destruct c; cbn
           | |- context [match ?c with [] => _ | _ :: _ => _ end] =>
               destruct c; cbn
           end;
    first [ apply asserts_at_ok
          | apply asserts_at_fail; unfold entry_lines; simpl; tauto ].
Qed.

Ltac entry_facts :=
  repeat match goal with
         | H : negb _ = true |- _ => apply negb_true_iff in H
         | H : negb _ = false |- _ => apply negb_false_iff in H
         | H : String.eqb _ _ = true |- _ => apply String.eqb_eq in H
         | H : String.eqb _ _ = false |- _ => apply String.eqb_neq in H
         end.

Ltac entry_refute :=
  let H := fresh "H" in
  intros H; unfold entry_ok in H;
  destruct H as [[? ?] [? [? [? [? [[?|[? ?]] [?|[? [? ?]]]]]]]]];
  congruence.

Ltac entry_build :=
  intros _; split; [eexists; reflexivity |];
  do 2 eexists; split; [reflexivity |]; split; [eassumption |]; split;
  [ first [ left; assumption | right; eexists; eassumption ]
  | first [ left; assumption
          | right; eexists; split; [eassumption | assumption] ] ].

Lemma check_entry_ok (option_name : PyKey) (metadata : PyVal) :
  check_entry option_name metadata = Ok tt <-> entry_ok option_name metadata.
Proof.
  entry_cases option_name metadata;
    repeat match goal with
           | |- context [if ?c then _ else _] => destruct c eqn:?; cbn
           | |- context [match ?c with [] => _ | _ :: _ => _ end] =>
               destruct c eqn:?; cbn
           end;
    entry_facts;
    (split; [ first [ discriminate | congruence | entry_build ]
            | first [ reflexivity | entry_refute ] ]).
Qed.

(* ================================================================== *)
(** * The two collections (lines 50-62) and the whole test *)

(** The collection [coll] of the mapping is present, is a non-empty [dict]
    and each of its items is accepted by lines 56-62. *)
Definition collection_present (info : dict) (coll : string) : Prop :=
  exists items, dict_get (KStr coll) info = Some (PDict items) /\ items <> [].

Definition collection_ok (info : dict) (coll : string) : Prop :=
  exists items,
    dict_get (KStr coll) info = Some (PDict items) /\ items <> [] /\
    forall name md, In (name, md) items -> entry_ok name md.

Definition collection_lines : list nat := 51 :: 52 :: 53 :: entry_lines.

Definition test_lines : list nat := 32 :: 45 :: 47 :: 48 :: collection_lines.

Lemma check_collection_ok (info : dict) (coll : string) :
  check_collection (PDict info) coll = Ok tt <-> collection_ok info coll.
Proof.
  unfold check_collection, collection_ok, assertIn, assertIsInstance,
    assertTrue, py_contains, py_getitem, dict_mem.
  destruct (dict_get (KStr coll) info) as [c|]; cbn.
  - destruct c as [| b | z | s | l | items]; cbn;
      try (split; [discriminate | intros [? [? _]]; congruence]).
    destruct items as [|item items]; cbn.
    + split; [discriminate | intros [? [? [? _]]]; congruence].
    + rewrite rbind_ok. split.
      * intros [[] [He Hl]]. exists (item :: items).
        split; [reflexivity |]. split; [discriminate |].
        intros name md [Heq | Hin].
        -- subst item. apply check_entry_ok. assumption.
        -- rewrite for_each_ok in Hl.
           apply check_entry_ok. apply (Hl (name, md)). assumption.
      * intros [items' [Heq [_ Hall]]]. inversion Heq; subst items'.
        exists tt. split.
        -- apply check_entry_ok. apply Hall. left. destruct item; reflexivity.
        -- apply for_each_ok. intros [name md] Hin.
           apply check_entry_ok. apply Hall. right. assumption.
  - split; [discriminate | intros [? [? _]]; congruence].
Qed.

Lemma check_collection_asserts (info : dict) (coll : string) :
  asserts_at collection_lines (check_collection (PDict info) coll).
Proof.
  unfold check_collection, assertIn, assertIsInstance,
    assertTrue, py_contains, py_getitem, dict_mem.
  destruct (dict_get (KStr coll) info) as [c|]; cbn.
  - destruct c as [| b | z | s | l | items]; cbn;
      try (apply asserts_at_fail; unfold collection_lines; simpl; tauto).
    destruct items as [|item items]; cbn.
    + apply asserts_at_fail; unfold collection_lines; simpl; tauto.
    + apply asserts_at_incl with (lines := entry_lines).
      * unfold collection_lines. intros x Hx. do 3 right. assumption.
      * apply asserts_at_bind; [apply check_entry_asserts |].
        apply for_each_asserts. intros x _. apply check_entry_asserts.
  - apply asserts_at_fail; unfold collection_lines; simpl; tauto.
Qed.

Lemma check_info_ok (info : dict) :
  check_info (PDict info) = Ok tt <->
  (forall k, In k expected_keys -> field_ok info k) /\
  (forall coll, In coll collections -> collection_ok info coll).
Proof.
  unfold check_info. cbn [assertIsInstance isinstance type_of type_eqb orb rbind].
  rewrite rbind_ok. split.
  - intros [[] [Hr Hc]]. split.
    + apply required_fields_ok. assumption.
    + rewrite for_each_ok in Hc. intros coll Hin.
      apply check_collection_ok. apply Hc. assumption.
  - intros [Hr Hc]. exists tt. split.
    + apply required_fields_ok. assumption.
    + apply for_each_ok. intros coll Hin.
      apply check_collection_ok. apply Hc. assumption.
Qed.

(** Whatever [buildinfo()] returned, the checks end normally or by a failed
    assertion: no [KeyError], [TypeError] or [AttributeError] escapes. *)
Lemma check_info_asserts (v : PyVal) :
  asserts_at test_lines (check_info v).
Proof.
  unfold check_info, assertIsInstance.
  destruct v as [| b | z | s | l | info];
    try (cbn; apply asserts_at_fail; unfold test_lines; simpl; tauto).
  cbn [isinstance type_of type_eqb orb rbind].
  apply asserts_at_bind.
  - apply asserts_at_incl with (lines := [45; 47; 48]).
    + unfold test_lines. intros x [<- | [<- | [<- | []]]]; simpl; tauto.
    + apply required_fields_in_asserts. apply incl_refl.
  - apply asserts_at_incl with (lines := collection_lines).
    + unfold test_lines. intros x Hx. do 4 right. assumption.
    + apply for_each_asserts. intros coll _. apply check_collection_asserts.
Qed.

Lemma test_buildinfo_returns (m : PyModule) (v : PyVal) :
  call_buildinfo m = Ok v ->
  test_buildinfo_reports_metadata m = check_info v.
Proof.
  intros H. unfold test_buildinfo_reports_metadata. rewrite H. reflexivity.
Qed.

Lemma forallb_agree {A} (f g : A -> bool) (l : list A) :
  (forall x, In x l -> f x = g x) -> forallb f l = forallb g l.
Proof.
  induction l as [|x l IH]; simpl; intros H; [reflexivity |].
  rewrite (H x (or_introl eq_refl)), IH; [reflexivity |].
  intros y Hy. apply H. right. assumption.
Qed.

Lemma check_field_agree (d1 d2 : dict) (k : string) :
  dict_get (KStr k) d1 = dict_get (KStr k) d2 ->
  check_field (PDict d1) k = check_field (PDict d2) k.
Proof. intros H. unfold check_field, py_getitem. rewrite H. reflexivity. Qed.

Lemma check_collection_agree (d1 d2 : dict) (coll : string) :
  dict_get (KStr coll) d1 = dict_get (KStr coll) d2 ->
  check_collection (PDict d1) coll = check_collection (PDict d2) coll.
Proof.
  intros H.
  unfold check_collection, assertIn, py_contains, py_getitem, dict_mem.
  rewrite H. reflexivity.
Qed.

(** The checks read the mapping only at the eight required keys and at the
    two collections. *)
Lemma check_info_agree (d1 d2 : dict) :
  (forall k, In k (expected_keys ++ collections) ->
             dict_get (KStr k) d1 = dict_get (KStr k) d2) ->
  check_info (PDict d1) = check_info (PDict d2).
Proof.
  intros H. unfold check_info.
  cbn [assertIsInstance isinstance type_of type_eqb orb rbind].
  assert (Hreq : required_fields (PDict d1) = required_fields (PDict d2)).
  { unfold required_fields, required_fields_in. simpl py_keys. cbn [rbind].
    rewrite !issubset_mem.
    rewrite (forallb_agree (fun k => dict_mem (KStr k) d1)
                           (fun k => dict_mem (KStr k) d2)).
    - rewrite (for_each_ext expected_keys (check_field (PDict d1))
                            (check_field (PDict d2))); [reflexivity |].
      intros k Hk.
      apply check_field_agree. apply H. apply in_or_app. left. assumption.
    - intros k Hk. unfold dict_mem. rewrite H; [reflexivity |].
      apply in_or_app. left. assumption. }
  rewrite Hreq.
  rewrite (for_each_ext collections (check_collection (PDict d1))
                        (check_collection (PDict d2))); [reflexivity |].
  intros coll Hc.
  apply check_collection_agree. apply H. apply in_or_app. right. assumption.
Qed.

(* ================================================================== *)
(** * Sample data *)

Definition metadata_record (value help : string) : PyVal :=
  PDict [ (KStr "value", PStr value); (KStr "help", PStr help) ].

Definition sample_info : dict :=
  [ (KStr "generator", PStr "Ninja");
    (KStr "build_type", PStr "Release");
    (KStr "system_name", PStr "Linux");
    (KStr "system_version", PStr "6.1.0");
    (KStr "system_processor", PStr "x86_64");
    (KStr "cxx_compiler_id", PStr "GNU");
    (KStr "cxx_compiler_version", PStr "13.2.0");
    (KStr "cxx_compiler_path", PStr "/usr/bin/c++");
    (KStr "build_options",
     PDict [ (KStr "UNI20_BUILD_PYTHON",
              metadata_record "ON" "Build the Python bindings") ]);
    (KStr "detected_environment",
     PDict [ (KStr "BLAS_VENDOR",
              metadata_record "" "BLAS implementation that was found") ]) ].

(** A loaded binding whose [buildinfo()] returns [v] and whose [greet()]
    returns [g]. *)
Definition binding (v g : PyVal) : PyModule :=
  {| attr_buildinfo := Some (Ok v); attr_greet := Some (Ok g) |}.

Definition greeting : PyVal := PStr "Hello from uni20!".

Example sample_info_passes :
  test_buildinfo_reports_metadata (binding (PDict sample_info) greeting) = Ok tt.
Proof. reflexivity. Qed.

Example sample_without_generator_fails :
  test_buildinfo_reports_metadata (binding (PDict (tl sample_info)) greeting)
  = Raise (AssertionError 45).
Proof. reflexivity. Qed.

Example sample_empty_build_type_fails :
  test_buildinfo_reports_metadata
    (binding (PDict (dict_set (KStr "build_type") (PStr "") sample_info)) greeting)
  = Raise (AssertionError 48).
Proof. reflexivity. Qed.

Example sample_non_string_field_fails :
  test_buildinfo_reports_metadata
    (binding (PDict (dict_set (KStr "system_name") (PInt 3) sample_info)) greeting)
  = Raise (AssertionError 47).
Proof. reflexivity. Qed.

Example sample_empty_collection_fails :
  test_buildinfo_reports_metadata
    (binding (PDict (dict_set (KStr "build_options") (PDict []) sample_info)) greeting)
  = Raise (AssertionError 53).
Proof. reflexivity. Qed.

Example sample_greet_passes :
  TestGreet.test_greet_returns_expected_message (binding PNone greeting) = Ok tt.
Proof. reflexivity. Qed.

(* ================================================================== *)
(** * Properties of the buildinfo test *)

(** A metadata record whose [value] is a non-empty string and whose [help]
    is [None]. *)
Definition record_with_null_help : PyVal :=
  PDict [ (KStr "value", PStr "ON"); (KStr "help", PNone) ].

(** A metadata record with an empty [value] and no [help]. *)
Definition record_without_text : PyVal :=
  PDict [ (KStr "value", PStr "") ].

(** [sample_info] with [build_options] holding the single entry
    [name : record]. *)
Definition sample_with_option (name : string) (record : PyVal) : dict :=
  dict_set (KStr "build_options") (PDict [ (KStr name, record) ]) sample_info.

(** C1, as the specification words it, fails: the record
    [{"value": "ON", "help": None}] is a mapping with a non-empty [value]
    string, yet line 62 rejects it, and a mapping that is otherwise in order
    fails the test because of it. *)
Lemma non_string_help_is_rejected :
  spec_entry_ok record_with_null_help /\
  check_entry (KStr "UNI20_BUILD_PYTHON") record_with_null_help
    = Raise (AssertionError 62) /\
  test_buildinfo_reports_metadata
    (binding (PDict (sample_with_option "UNI20_BUILD_PYTHON"
                                        record_with_null_help)) greeting)
    = Raise (AssertionError 62).
Proof.
  split; [| split; reflexivity].
  exists [ (KStr "value", PStr "ON"); (KStr "help", PNone) ], "ON".
  split; [reflexivity |]. split; [reflexivity |].
  left. discriminate.
Qed.

(** C1 (amended): lines 56-62 accept an entry if and only if its option name
    is a string, its metadata is a mapping with a [value] key bound to a
    string, a [help] key that is present is bound to a string, and [value]
    is non-empty or [help] is present and non-empty.  An entry of
    [build_options] or [detected_environment] that violates this makes
    [test_buildinfo_reports_metadata] fail with an [AssertionError]. *)
Theorem entry_accepted_iff (option_name : PyKey) (metadata : PyVal) :
  (check_entry option_name metadata = Ok tt <->
   entry_ok option_name metadata) /\
  (forall (m : PyModule) (info : dict) (coll : string) (items : dict),
      call_buildinfo m = Ok (PDict info) ->
      In coll collections ->
      dict_get (KStr coll) info = Some (PDict items) ->
      In (option_name, metadata) items ->
      ~ entry_ok option_name metadata ->
      exists line,
        In line test_lines /\
        test_buildinfo_reports_metadata m = Raise (AssertionError line)).
Proof.
  split; [apply check_entry_ok |].
  intros m info coll items Hcall Hcoll Hget Hin Hbad.
  rewrite (test_buildinfo_returns m _ Hcall).
  apply asserts_at_not_ok; [apply check_info_asserts |].
  intros Hok. apply check_info_ok in Hok. destruct Hok as [_ Hc].
  destruct (Hc coll Hcoll) as [items' [Hget' [_ Hall]]].
  rewrite Hget in Hget'. inversion Hget'; subst items'.
  apply Hbad. apply Hall. assumption.
Qed.

Lemma entry_accepted_iff_witness :
  exists line,
    In line test_lines /\
    test_buildinfo_reports_metadata
      (binding (PDict (sample_with_option "BLAS_VENDOR" record_without_text))
               greeting)
    = Raise (AssertionError line).
Proof.
  apply (proj2 (entry_accepted_iff (KStr "BLAS_VENDOR") record_without_text)
               (binding (PDict (sample_with_option "BLAS_VENDOR"
                                                   record_without_text))
                        greeting)
               (sample_with_option "BLAS_VENDOR" record_without_text)
               "build_options"
               [ (KStr "BLAS_VENDOR", record_without_text) ]).
  - reflexivity.
  - left. reflexivity.
  - reflexivity.
  - left. reflexivity.
  - intros H.
    apply (proj1 (entry_accepted_iff (KStr "BLAS_VENDOR") record_without_text))
      in H.
    discriminate H.
Defined.

(** C2: when [buildinfo()] returns a mapping, lines 45-48 pass if and only
    if each of the eight keys of [expected_keys] is present and bound to a
    non-empty string; otherwise the test fails with an [AssertionError]
    raised at line 45, 47 or 48. *)
Theorem required_fields_checked (m : PyModule) (info : dict) :
  call_buildinfo m = Ok (PDict info) ->
  (required_fields (PDict info) = Ok tt <->
   forall k, In k expected_keys -> field_ok info k) /\
  (test_buildinfo_reports_metadata m = Ok tt ->
   forall k, In k expected_keys -> field_ok info k) /\
  (~ (forall k, In k expected_keys -> field_ok info k) ->
   exists line,
     In line [45; 47; 48] /\
     test_buildinfo_reports_metadata m = Raise (AssertionError line)).
Proof.
  intros Hcall. rewrite (test_buildinfo_returns m _ Hcall).
  split; [apply required_fields_ok |]. split.
  - intros Hok. apply check_info_ok in Hok. apply Hok.
  - intros Hbad.
    destruct (asserts_at_not_ok [45; 47; 48] (required_fields (PDict info)))
      as [line [Hline Hraise]].
    + apply required_fields_in_asserts. apply incl_refl.
    + intros Hok. apply Hbad. apply required_fields_ok. assumption.
    + exists line. split; [assumption |].
      unfold check_info.
      cbn [assertIsInstance isinstance type_of type_eqb orb rbind].
      rewrite Hraise. reflexivity.
Qed.

Lemma required_fields_checked_witness :
  (forall k, In k expected_keys -> field_ok sample_info k) /\
  exists line,
    In line [45; 47; 48] /\
    test_buildinfo_reports_metadata (binding (PDict (tl sample_info)) greeting)
    = Raise (AssertionError line).
Proof.
  split.
  - apply (proj1 (proj2 (required_fields_checked
                           (binding (PDict sample_info) greeting)
                           sample_info eq_refl))).
    reflexivity.
  - apply (proj2 (proj2 (required_fields_checked
                           (binding (PDict (tl sample_info)) greeting)
                           (tl sample_info) eq_refl))).
    intros H. destruct (H "generator" (or_introl eq_refl)) as [s [Hs _]].
    discriminate Hs.
Defined.

(** C6: when [buildinfo()] returns a mapping, the test passes only if
    [build_options] and [detected_environment] are both present and bound
    to non-empty dictionaries; otherwise it fails with an
    [AssertionError]. *)
Theorem collections_checked (m : PyModule) (info : dict) :
  call_buildinfo m = Ok (PDict info) ->
  (test_buildinfo_reports_metadata m = Ok tt ->
   collection_present info "build_options" /\
   collection_present info "detected_environment") /\
  (~ (collection_present info "build_options" /\
      collection_present info "detected_environment") ->
   exists line,
     In line test_lines /\
     test_buildinfo_reports_metadata m = Raise (AssertionError line)).
Proof.
  intros Hcall. rewrite (test_buildinfo_returns m _ Hcall).
  assert (Hpass : check_info (PDict info) = Ok tt ->
                  collection_present info "build_options" /\
                  collection_present info "detected_environment").
  { intros Hok. apply check_info_ok in Hok. destruct Hok as [_ Hc].
    split.
    - destruct (Hc "build_options") as [items [Hget [Hne _]]];
        [left; reflexivity |].
      exists items. split; assumption.
    - destruct (Hc "detected_environment") as [items [Hget [Hne _]]];
        [right; left; reflexivity |].
      exists items. split; assumption. }
  split; [exact Hpass |].
  intros Hbad. apply asserts_at_not_ok; [apply check_info_asserts |].
  intros Hok. apply Hbad. apply Hpass. assumption.
Qed.

Lemma collections_checked_witness :
  (collection_present sample_info "build_options" /\
   collection_present sample_info "detected_environment") /\
  exists line,
    In line test_lines /\
    test_buildinfo_reports_metadata
      (binding (PDict (dict_set (KStr "detected_environment") (PDict [])
                                sample_info)) greeting)
    = Raise (AssertionError line).
Proof.
  split.
  - apply (proj1 (collections_checked (binding (PDict sample_info) greeting)
                                      sample_info eq_refl)).
    reflexivity.
  - apply (proj2 (collections_checked
                    (binding (PDict (dict_set (KStr "detected_environment")
                                              (PDict []) sample_info))
                             greeting)
                    (dict_set (KStr "detected_environment") (PDict [])
                              sample_info)
                    eq_refl)).
    intros [_ [items [Hget Hne]]].
    vm_compute in Hget. inversion Hget. subst items. apply Hne. reflexivity.
Defined.

(** [sample_info] with two more top-level keys. *)
Definition sample_info_extended : dict :=
  dict_set (KStr "git_revision") (PStr "0a1b2c3")
    (dict_set (KInt 7) (PList [PNone]) sample_info).

(** C7: the verdict of the test is a function of the values bound to the
    eight required keys and to the two collections.  Two mappings that
    agree on these ten keys get the same outcome, and binding any other
    top-level key of a mapping that passes leaves it passing. *)
Theorem verdict_reads_ten_keys_only :
  (forall (m1 m2 : PyModule) (d1 d2 : dict),
      call_buildinfo m1 = Ok (PDict d1) ->
      call_buildinfo m2 = Ok (PDict d2) ->
      (forall k, In k (expected_keys ++ collections) ->
                 dict_get (KStr k) d1 = dict_get (KStr k) d2) ->
      test_buildinfo_reports_metadata m1 = test_buildinfo_reports_metadata m2)
  /\
  (forall (m m' : PyModule) (d : dict) (k : PyKey) (v : PyVal),
      call_buildinfo m = Ok (PDict d) ->
      call_buildinfo m' = Ok (PDict (dict_set k v d)) ->
      ~ In k (map KStr (expected_keys ++ collections)) ->
      test_buildinfo_reports_metadata m = Ok tt ->
      test_buildinfo_reports_metadata m' = Ok tt).
Proof.
  split.
  - intros m1 m2 d1 d2 H1 H2 Hagree.
    rewrite (test_buildinfo_returns m1 _ H1), (test_buildinfo_returns m2 _ H2).
    apply check_info_agree. assumption.
  - intros m m' d k v H H' Hk Hpass.
    rewrite (test_buildinfo_returns m _ H) in Hpass.
    rewrite (test_buildinfo_returns m' _ H'), <- Hpass.
    apply check_info_agree. intros k' Hk'.
    apply dict_get_set_other. intros Heq. apply Hk. rewrite <- Heq.
    apply in_map. assumption.
Qed.

Lemma verdict_reads_ten_keys_only_witness :
  test_buildinfo_reports_metadata (binding (PDict sample_info) greeting)
  = test_buildinfo_reports_metadata
      (binding (PDict (rev sample_info_extended)) PNone)
  /\
  test_buildinfo_reports_metadata
    (binding (PDict (dict_set (KStr "git_revision") (PInt 0) sample_info))
             greeting) = Ok tt.
Proof.
  split.
  - apply (proj1 verdict_reads_ten_keys_only
                 (binding (PDict sample_info) greeting)
                 (binding (PDict (rev sample_info_extended)) PNone)
                 sample_info (rev sample_info_extended) eq_refl eq_refl).
    intros k Hk. simpl in Hk.
    repeat (destruct Hk as [<- | Hk]; [reflexivity |]). contradiction.
  - apply (proj2 verdict_reads_ten_keys_only
                 (binding (PDict sample_info) greeting)
                 (binding (PDict (dict_set (KStr "git_revision") (PInt 0)
                                           sample_info)) greeting)
                 sample_info (KStr "git_revision") (PInt 0) eq_refl eq_refl).
    + simpl. intros Hk.
      repeat (destruct Hk as [Hk | Hk]; [discriminate Hk |]). contradiction.
    + reflexivity.
Defined.

(* ================================================================== *)
(** * The greeting probe *)

Lemma py_eq_str (g : PyVal) (s : string) :
  py_eq g (PStr s) = true <-> g = PStr s.
Proof.
  destruct g as [| b | z | t | l | d]; simpl;
    try (split; [discriminate | intros H; discriminate H]).
  rewrite String.eqb_eq. split; [intros ->; reflexivity |].
  intros H. inversion H. reflexivity.
Qed.

(** C3: when [greet()] returns a value, the smoke test passes if and only
    if that value is the string "Hello from uni20!"; any other value fails
    the assertion of line 30. *)
Theorem greet_test_iff (m : PyModule) (g : PyVal) :
  call_greet m = Ok g ->
  (TestGreet.test_greet_returns_expected_message m = Ok tt <->
   g = PStr "Hello from uni20!") /\
  (g <> PStr "Hello from uni20!" ->
   TestGreet.test_greet_returns_expected_message m
   = Raise (AssertionError 30)).
Proof.
  intros Hcall. unfold TestGreet.test_greet_returns_expected_message.
  rewrite Hcall. cbn [rbind]. unfold assertEqual.
  destruct (py_eq g (PStr "Hello from uni20!")) eqn:E.
  - apply py_eq_str in E. split.
    + split; [intros _; assumption | reflexivity].
    + intros Hne. contradiction.
  - split.
    + split; [discriminate |].
      intros Hg. apply py_eq_str in Hg. congruence.
    + reflexivity.
Qed.

Lemma greet_test_iff_witness :
  TestGreet.test_greet_returns_expected_message
    (binding PNone (PStr "Hello from uni20")) = Raise (AssertionError 30).
Proof.
  apply (proj2 (greet_test_iff (binding PNone (PStr "Hello from uni20"))
                               (PStr "Hello from uni20") eq_refl)).
  discriminate.
Defined.

(* ================================================================== *)
(** * Loading the binding: path injection, imports, output *)

(** The text of the [SkipTest] raised at line 14 of both harnesses. *)
Definition skip_message : string := "Bindings output directory not provided".

(** The state with another command line. *)
Definition with_argv (l : list string) (st : State) : State :=
  {| argv := l; sys_path := sys_path st;
     stdout := stdout st; imports := imports st |}.

(** The state [_load_module] leaves when the command line is
    [a0 :: a1 :: _]: the resolved directory heads [sys.path], [sys.argv] is
    [[a0]], and one import of [name] was attempted, under that path and
    that command line. *)
Definition loaded_state (env : Env) (name a0 a1 : string) (st : State) : State :=
  {| argv := [a0];
     sys_path := resolve env a1 :: sys_path st;
     stdout := stdout st;
     imports := imports st ++
                [ {| imp_name := name;
                     imp_path := resolve env a1 :: sys_path st;
                     imp_argv := [a0] |} ] |}.

(** The two harnesses define the same loader, up to the module name. *)
Definition load_module_of (name : string) (env : Env) : prog PyModule :=
  (n <- len_argv ;;
   if (n <? 2)%nat then raise (SkipTest skip_message)
   else
     a1 <- argv_at 1 ;;
     let bindings_dir := resolve env a1 in
     sys_path_insert 0 bindings_dir ;;
     a0 <- argv_at 0 ;;
     set_argv [a0] ;;
     import_module env name)%prog.

Lemma buildinfo_loader : TestBuildinfo._load_module = load_module_of "uni20".
Proof. reflexivity. Qed.

Lemma greet_loader : TestGreet._load_module = load_module_of "uni20_python".
Proof. reflexivity. Qed.

Lemma load_module_skip (name : string) (env : Env) (st : State) :
  List.length (argv st) < 2 ->
  load_module_of name env st = (Raise (SkipTest skip_message), st).
Proof.
  intros H. unfold load_module_of, bind, len_argv, raise.
  apply Nat.ltb_lt in H. rewrite H. reflexivity.
Qed.

Lemma load_module_run (name : string) (env : Env) (st : State)
      (a0 a1 : string) (rest : list string) :
  argv st = a0 :: a1 :: rest ->
  load_module_of name env st =
  (lookup_module env (resolve env a1 :: sys_path st) name,
   loaded_state env name a0 a1 st).
Proof.
  intros H. destruct st as [av sp out imps]. simpl in H. subst av.
  reflexivity.
Qed.

Lemma load_module_imports (name : string) (env : Env) (st : State) :
  imports (snd (load_module_of name env st)) <> imports st ->
  2 <= List.length (argv st).
Proof.
  intros H. destruct (Nat.lt_ge_cases (List.length (argv st)) 2) as [Hlt | Hge].
  - rewrite (load_module_skip name env st Hlt) in H. simpl in H.
    contradiction H. reflexivity.
  - assumption.
Qed.

(** The search path under which the example imports: [sys.path], headed by
    the resolved [sys.argv[1]] when there is one. *)
Definition example_path (env : Env) (st : State) : list string :=
  match argv st with
  | _ :: a1 :: _ => resolve env a1 :: sys_path st
  | _ => sys_path st
  end.

Lemma example_main_run (env : Env) (st : State) :
  Example.main env st =
  let st1 := {| argv := argv st;
                sys_path := example_path env st;
                stdout := stdout st;
                imports := imports st ++
                           [ {| imp_name := "uni20";
                                imp_path := example_path env st;
                                imp_argv := argv st |} ] |} in
  match lookup_module env (example_path env st) "uni20" with
  | Ok m =>
      match call_buildinfo m with
      | Ok v => (Ok tt, {| argv := argv st1;
                           sys_path := sys_path st1;
                           stdout := stdout st ++ [pformat env v];
                           imports := imports st1 |})
      | Raise e => (Raise e, st1)
      end
  | Raise e => (Raise e, st1)
  end.
Proof.
  destruct st as [av sp out imps]. unfold example_path. simpl.
  destruct av as [|a0 [|a1 rest]]; cbn;
    match goal with
    | |- context [lookup_module ?e ?p ?n] => destruct (lookup_module e p n) as [m|e0]
    end; cbn; try reflexivity;
    unfold lift; destruct (call_buildinfo m); reflexivity.
Qed.

(** The names of the modules whose import was attempted between the states
    [st] and [st']. *)
Definition imported_names (st st' : State) : list string :=
  map imp_name (skipn (List.length (imports st)) (imports st')).

(** Between [st] and [st'] the directory [dir] was put at index 0 of
    [sys.path] and then one import, of [name], was attempted under the
    extended path. *)
Definition prepended_then_imported (st st' : State) (dir name : string) : Prop :=
  sys_path st' = list_insert 0 dir (sys_path st) /\
  nth_error (sys_path st') 0 = Some dir /\
  exists seen,
    imports st' = (imports st ++
                   [ {| imp_name := name;
                        imp_path := dir :: sys_path st;
                        imp_argv := seen |} ])%list.

Lemma skipn_length_app {A} (l l' : list A) :
  skipn (List.length l) (l ++ l') = l'.
Proof. induction l as [|x l IH]; simpl; [reflexivity | assumption]. Qed.

Lemma skipn_length_self {A} (l : list A) : skipn (List.length l) l = [].
Proof. induction l as [|x l IH]; simpl; [reflexivity | assumption]. Qed.

Lemma load_module_names (name : string) (env : Env) (st : State) :
  imported_names st (snd (load_module_of name env st)) =
  if (List.length (argv st) <? 2)%nat then [] else [name].
Proof.
  destruct (List.length (argv st) <? 2)%nat eqn:E.
  - apply Nat.ltb_lt in E. rewrite (load_module_skip name env st E).
    unfold imported_names. simpl. rewrite skipn_length_self. reflexivity.
  - apply Nat.ltb_ge in E.
    destruct (argv st) as [|a0 [|a1 rest]] eqn:Hargv; simpl in E; try lia.
    rewrite (load_module_run name env st a0 a1 rest Hargv).
    unfold imported_names, loaded_state. simpl.
    rewrite skipn_length_app. reflexivity.
Qed.

Lemma example_main_state (env : Env) (st : State) :
  sys_path (snd (Example.main env st)) = example_path env st /\
  argv (snd (Example.main env st)) = argv st /\
  imports (snd (Example.main env st)) =
    (imports st ++ [ {| imp_name := "uni20";
                        imp_path := example_path env st;
                        imp_argv := argv st |} ])%list.
Proof.
  rewrite example_main_run. cbv zeta.
  destruct (lookup_module env (example_path env st) "uni20") as [m|e];
    [destruct (call_buildinfo m) as [v|e] |]; simpl; auto.
Qed.

(* ================================================================== *)
(** * Sample environments *)

Definition is_absolute (p : string) : bool := String.prefix "/" p.

Definition sample_resolve (p : string) : string :=
  if is_absolute p then p else "/work/" ++ p.

Definition sample_pformat (v : PyVal) : string :=
  match v with
  | PNone => "None"
  | PBool true => "True"
  | PBool false => "False"
  | PInt _ => "<int>"
  | PStr s => "'" ++ s ++ "'"
  | PList _ => "[...]"
  | PDict _ => "{...}"
  end.

(** An environment in which [/work/build/bindings/python] holds the modules
    [uni20] and [uni20_python], when they are given. *)
Definition env_with (uni20 uni20_python : option PyModule) : Env :=
  {| resolve := sample_resolve;
     find_module := fun path name =>
       if existsb (String.eqb "/work/build/bindings/python") path then
         if String.eqb name "uni20" then uni20
         else if String.eqb name "uni20_python" then uni20_python
         else None
       else None;
     pformat := sample_pformat |}.

Definition sample_env : Env :=
  env_with (Some (binding (PDict sample_info) PNone))
           (Some (binding PNone greeting)).

(** A fresh interpreter started with the command line [args]. *)
Definition start (args : list string) : State :=
  {| argv := args; sys_path := ["/usr/lib/python3"];
     stdout := []; imports := [] |}.

Definition sample_command_line : list string :=
  [ "test_buildinfo.py"; "build/bindings/python"; "-v" ].

Example sample_load :
  TestBuildinfo._load_module sample_env (start sample_command_line) =
  (Ok (binding (PDict sample_info) PNone),
   {| argv := ["test_buildinfo.py"];
      sys_path := ["/work/build/bindings/python"; "/usr/lib/python3"];
      stdout := [];
      imports := [ {| imp_name := "uni20";
                      imp_path := ["/work/build/bindings/python";
                                   "/usr/lib/python3"];
                      imp_argv := ["test_buildinfo.py"] |} ] |}).
Proof. reflexivity. Qed.

Example sample_example_run :
  Example.main sample_env (start ["example.py"; "build/bindings/python"]) =
  (Ok tt,
   {| argv := ["example.py"; "build/bindings/python"];
      sys_path := ["/work/build/bindings/python"; "/usr/lib/python3"];
      stdout := ["{...}"];
      imports := [ {| imp_name := "uni20";
                      imp_path := ["/work/build/bindings/python";
                                   "/usr/lib/python3"];
                      imp_argv := ["example.py"; "build/bindings/python"] |} ] |}).
Proof. reflexivity. Qed.

Example sample_example_without_directory :
  fst (Example.main sample_env (start ["example.py"])) =
  Raise (ModuleNotFoundError "uni20").
Proof. reflexivity. Qed.

(* ================================================================== *)
(** * Properties of the loaders and of the example *)

(** In both harnesses, with fewer than two command-line arguments
    [_load_module] raises [SkipTest] and leaves the interpreter state as it
    was, so no import was attempted; an import is attempted only when
    [sys.argv] has a second element. *)
Theorem skip_without_bindings_dir (env : Env) (st : State) :
  (List.length (argv st) < 2 ->
   TestBuildinfo._load_module env st = (Raise (SkipTest skip_message), st) /\
   TestGreet._load_module env st = (Raise (SkipTest skip_message), st)) /\
  (imports (snd (TestBuildinfo._load_module env st)) <> imports st ->
   2 <= List.length (argv st)) /\
  (imports (snd (TestGreet._load_module env st)) <> imports st ->
   2 <= List.length (argv st)).
Proof.
  rewrite buildinfo_loader, greet_loader. split; [| split].
  - intros H. split; apply load_module_skip; assumption.
  - apply load_module_imports.
  - apply load_module_imports.
Qed.

Lemma skip_without_bindings_dir_witness :
  TestBuildinfo._load_module sample_env (start ["test_buildinfo.py"])
  = (Raise (SkipTest skip_message), start ["test_buildinfo.py"]) /\
  TestGreet._load_module sample_env (start ["test_buildinfo.py"])
  = (Raise (SkipTest skip_message), start ["test_buildinfo.py"]).
Proof.
  apply (proj1 (skip_without_bindings_dir sample_env
                                          (start ["test_buildinfo.py"]))).
  simpl. lia.
Defined.

(** C5: with a directory argument [a1], the example and both harnesses put
    the resolved [a1] at index 0 of [sys.path], and the import that follows
    is made under the extended path. *)
Theorem bindings_dir_prepended_before_import
        (env : Env) (st : State) (a0 a1 : string) (rest : list string) :
  argv st = a0 :: a1 :: rest ->
  prepended_then_imported st (snd (Example.main env st))
                          (resolve env a1) "uni20" /\
  prepended_then_imported st (snd (TestBuildinfo._load_module env st))
                          (resolve env a1) "uni20" /\
  prepended_then_imported st (snd (TestGreet._load_module env st))
                          (resolve env a1) "uni20_python".
Proof.
  intros Hargv. rewrite buildinfo_loader, greet_loader.
  rewrite !(load_module_run _ env st a0 a1 rest Hargv).
  destruct (example_main_state env st) as [Hpath [_ Himp]].
  assert (Hex : example_path env st = resolve env a1 :: sys_path st).
  { unfold example_path. rewrite Hargv. reflexivity. }
  rewrite Hex in Hpath, Himp.
  unfold prepended_then_imported, list_insert. simpl.
  repeat split.
  - assumption.
  - rewrite Hpath. reflexivity.
  - exists (argv st). assumption.
  - exists [a0]. reflexivity.
  - exists [a0]. reflexivity.
Qed.

Lemma bindings_dir_prepended_before_import_witness :
  prepended_then_imported
    (start sample_command_line)
    (snd (TestBuildinfo._load_module sample_env (start sample_command_line)))
    "/work/build/bindings/python" "uni20".
Proof.
  apply (proj1 (proj2 (bindings_dir_prepended_before_import
                         sample_env (start sample_command_line)
                         "test_buildinfo.py" "build/bindings/python" ["-v"]
                         eq_refl))).
Defined.

(** C8, as the specification words it, fails: started alike, the buildinfo
    harness imports [uni20] and the greet harness imports
    [uni20_python]. *)
Lemma greet_harness_imports_another_module :
  imported_names
    (start sample_command_line)
    (snd (TestBuildinfo._load_module sample_env (start sample_command_line)))
  = ["uni20"] /\
  imported_names
    (start sample_command_line)
    (snd (TestGreet._load_module sample_env (start sample_command_line)))
  = ["uni20_python"] /\
  imported_names
    (start sample_command_line)
    (snd (TestBuildinfo._load_module sample_env (start sample_command_line)))
  <>
  imported_names
    (start sample_command_line)
    (snd (TestGreet._load_module sample_env (start sample_command_line))).
Proof.
  split; [reflexivity |]. split; [reflexivity |].
  intros H. vm_compute in H. discriminate H.
Qed.

(** The example and [test_buildinfo.py] import the module named [uni20]
    and nothing else; [test_greet.py] imports the module named
    [uni20_python] and nothing else. *)
Lemma consumers_import_by_name (env : Env) (st : State) :
  imported_names st (snd (Example.main env st)) = ["uni20"] /\
  imported_names st (snd (TestBuildinfo._load_module env st))
  = (if (List.length (argv st) <? 2)%nat then [] else ["uni20"]) /\
  imported_names st (snd (TestGreet._load_module env st))
  = (if (List.length (argv st) <? 2)%nat then [] else ["uni20_python"]).
Proof.
  rewrite buildinfo_loader, greet_loader. split; [| split].
  - destruct (example_main_state env st) as [_ [_ Himp]].
    unfold imported_names. rewrite Himp, skipn_length_app. reflexivity.
  - apply load_module_names.
  - apply load_module_names.
Qed.

(** C9: run as [program [bindings_dir]], the example imports [uni20] under
    [sys.path], headed by the resolved [sys.argv[1]] when there is one, and
    whatever value [buildinfo()] returns is printed as [pprint] formats it:
    nothing is checked before printing, [sys.argv[1]] is taken as a
    directory whatever it looks like, and later arguments are not read. *)
Theorem example_prints_buildinfo
        (env : Env) (st : State) (m : PyModule) (v : PyVal) :
  find_module env (example_path env st) "uni20" = Some m ->
  call_buildinfo m = Ok v ->
  Example.main env st =
  (Ok tt,
   {| argv := argv st;
      sys_path := example_path env st;
      stdout := stdout st ++ [pformat env v];
      imports := imports st ++
                 [ {| imp_name := "uni20";
                      imp_path := example_path env st;
                      imp_argv := argv st |} ] |}) /\
  (forall a0 a1 rest,
      argv st = a0 :: a1 :: rest ->
      example_path env st = resolve env a1 :: sys_path st) /\
  (List.length (argv st) <= 1 -> example_path env st = sys_path st).
Proof.
  intros Hfind Hcall. split; [| split].
  - rewrite example_main_run. cbv zeta.
    unfold lookup_module. rewrite Hfind, Hcall. reflexivity.
  - intros a0 a1 rest Hargv. unfold example_path. rewrite Hargv. reflexivity.
  - intros Hlen. unfold example_path.
    destruct (argv st) as [|a0 [|a1 rest]]; try reflexivity.
    simpl in Hlen. lia.
Qed.

Lemma example_prints_buildinfo_witness :
  Example.main
    (env_with (Some (binding (PStr "not a mapping") PNone)) None)
    (start ["example.py"; "build/bindings/python"; "--help"])
  = (Ok tt,
     {| argv := ["example.py"; "build/bindings/python"; "--help"];
        sys_path := ["/work/build/bindings/python"; "/usr/lib/python3"];
        stdout := ["'not a mapping'"];
        imports := [ {| imp_name := "uni20";
                        imp_path := ["/work/build/bindings/python";
                                     "/usr/lib/python3"];
                        imp_argv := ["example.py"; "build/bindings/python";
                                     "--help"] |} ] |}).
Proof.
  apply (proj1 (example_prints_buildinfo
                  (env_with (Some (binding (PStr "not a mapping") PNone)) None)
                  (start ["example.py"; "build/bindings/python"; "--help"])
                  (binding (PStr "not a mapping") PNone)
                  (PStr "not a mapping") eq_refl eq_refl)).
Defined.

(** C10, as the specification words it, fails: the command line is cut
    down before the module is loaded, not after.  The import is attempted
    with [sys.argv] already equal to [[argv[0]]], and when no module can be
    loaded the command line has been cut down all the same. *)
Lemma argv_truncated_before_import :
  map imp_argv
      (imports (snd (TestBuildinfo._load_module
                       sample_env (start sample_command_line))))
  = [ ["test_buildinfo.py"] ] /\
  map imp_argv
      (imports (snd (TestBuildinfo._load_module
                       sample_env (start sample_command_line))))
  <> [ argv (start sample_command_line) ] /\
  fst (TestGreet._load_module (env_with None None)
                              (start sample_command_line))
  = Raise (ModuleNotFoundError "uni20_python") /\
  argv (snd (TestGreet._load_module (env_with None None)
                                    (start sample_command_line)))
  = ["test_buildinfo.py"].
Proof.
  split; [reflexivity |]. split; [| split; reflexivity].
  intros H. vm_compute in H. discriminate H.
Qed.

(** C10 (amended): with a command line [a0 :: a1 :: rest], each harness
    reads [a1] only: [_load_module] puts the resolved [a1] first on
    [sys.path], sets [sys.argv] to [[a0]] before it imports the module, so
    that the import runs under, and leaves, that command line whether or not
    a module is found, and [rest] changes neither the result nor the
    state. *)
Theorem load_module_reads_first_argument
        (env : Env) (st : State) (a0 a1 : string) (rest : list string) :
  argv st = a0 :: a1 :: rest ->
  TestBuildinfo._load_module env st =
    (lookup_module env (resolve env a1 :: sys_path st) "uni20",
     loaded_state env "uni20" a0 a1 st) /\
  TestGreet._load_module env st =
    (lookup_module env (resolve env a1 :: sys_path st) "uni20_python",
     loaded_state env "uni20_python" a0 a1 st) /\
  (forall rest',
      TestBuildinfo._load_module env (with_argv (a0 :: a1 :: rest') st)
      = TestBuildinfo._load_module env st) /\
  (forall rest',
      TestGreet._load_module env (with_argv (a0 :: a1 :: rest') st)
      = TestGreet._load_module env st).
Proof.
  intros Hargv. rewrite buildinfo_loader, greet_loader.
  rewrite !(load_module_run _ env st a0 a1 rest Hargv).
  split; [reflexivity |]. split; [reflexivity |].
  split; intros rest';
    rewrite (load_module_run _ env (with_argv (a0 :: a1 :: rest') st)
                             a0 a1 rest' eq_refl);
    reflexivity.
Qed.

Lemma load_module_reads_first_argument_witness :
  TestGreet._load_module sample_env (start sample_command_line) =
  (Ok (binding PNone greeting),
   {| argv := ["test_buildinfo.py"];
      sys_path := ["/work/build/bindings/python"; "/usr/lib/python3"];
      stdout := [];
      imports := [ {| imp_name := "uni20_python";
                      imp_path := ["/work/build/bindings/python";
                                   "/usr/lib/python3"];
                      imp_argv := ["test_buildinfo.py"] |} ] |}).
Proof.
  apply (proj1 (proj2 (load_module_reads_first_argument
                         sample_env (start sample_command_line)
                         "test_buildinfo.py" "build/bindings/python" ["-v"]
                         eq_refl))).
Defined.

(* ================================================================== *)
(** * Further properties of the buildinfo test *)

(** Once [buildinfo()] has returned a value, of any type, the test ends
    normally or with an [AssertionError] raised at one of its assertions:
    no [KeyError], [TypeError] or [AttributeError] escapes from it. *)
Theorem test_passes_or_fails_an_assertion (m : PyModule) (v : PyVal) :
  call_buildinfo m = Ok v ->
  asserts_at test_lines (test_buildinfo_reports_metadata m).
Proof.
  intros Hcall. rewrite (test_buildinfo_returns m v Hcall).
  apply check_info_asserts.
Qed.

Lemma test_passes_or_fails_an_assertion_witness :
  asserts_at test_lines
             (test_buildinfo_reports_metadata (binding (PList [PInt 1]) PNone)).
Proof.
  apply (test_passes_or_fails_an_assertion
           (binding (PList [PInt 1]) PNone) (PList [PInt 1]) eq_refl).
Defined.

(** The verdict of lines 45-48 is the same in whatever order the set
    [expected_keys] is iterated. *)
Theorem required_fields_order_irrelevant (order : list string) (info : PyVal) :
  Permutation order expected_keys ->
  (required_fields_in order info = Ok tt <-> required_fields info = Ok tt).
Proof.
  intros Hp. apply required_fields_any_order. assumption.
Qed.

Lemma required_fields_order_irrelevant_witness :
  required_fields_in (rev expected_keys) (PDict sample_info) = Ok tt <->
  required_fields (PDict sample_info) = Ok tt.
Proof.
  apply (required_fields_order_irrelevant (rev expected_keys)
                                          (PDict sample_info)).
  apply Permutation_sym. apply Permutation_rev.
Defined.

(* ================================================================== *)
(** * Dictionaries: lookup, update and the order of items *)

Lemma dict_get_in (k : PyKey) (v : PyVal) (d : dict) :
  dict_get k d = Some v -> In (k, v) d.
Proof.
  induction d as [|[k0 v0] d IH]; simpl; [discriminate |].
  destruct (key_eqb k k0) eqn:E.
  - intros H. inversion H. apply key_eqb_eq in E. subst. left. reflexivity.
  - intros H. right. apply IH. assumption.
Qed.

Lemma in_dict_get (k : PyKey) (v : PyVal) (d : dict) :
  NoDup (map fst d) -> In (k, v) d -> dict_get k d = Some v.
Proof.
  induction d as [|[k0 v0] d IH]; simpl; intros Hnd Hin; [contradiction |].
  inversion Hnd as [|x l Hnotin Hnd']; subst.
  destruct Hin as [Heq | Hin].
  - inversion Heq; subst. rewrite key_eqb_refl. reflexivity.
  - destruct (key_eqb k k0) eqn:E.
    + apply key_eqb_eq in E. subst k0. exfalso. apply Hnotin.
      apply (in_map fst) in Hin. assumption.
    + apply IH; assumption.
Qed.

(** With distinct keys, lookup does not depend on the order of the items. *)
Lemma dict_get_perm (k : PyKey) (d d' : dict) :
  NoDup (map fst d) -> Permutation d d' -> dict_get k d = dict_get k d'.
Proof.
  intros Hnd Hp.
  assert (Hnd' : NoDup (map fst d')).
  { apply Permutation_NoDup with (l := map fst d); [| assumption].
    apply Permutation_map. assumption. }
  destruct (dict_get k d) as [v|] eqn:E.
  - symmetry. apply in_dict_get; [assumption |].
    apply Permutation_in with (l := d); [assumption |].
    apply dict_get_in. assumption.
  - destruct (dict_get k d') as [v'|] eqn:E'; [| reflexivity].
    apply dict_get_in in E'.
    apply Permutation_in with (l' := d) in E'; [| symmetry; assumption].
    apply in_dict_get in E'; [| assumption]. congruence.
Qed.

Lemma in_dict_set (k : PyKey) (v : PyVal) (d : dict) (item : PyKey * PyVal) :
  In item (dict_set k v d) -> In item d \/ item = (k, v).
Proof.
  induction d as [|[k0 v0] d IH]; simpl.
  - intros [H | []]. right. symmetry. assumption.
  - destruct (key_eqb k k0) eqn:E; simpl.
    + apply key_eqb_eq in E. subst k0.
      intros [H | H]; [right; symmetry; assumption | left; right; assumption].
    + intros [H | H]; [left; left; assumption |].
      destruct (IH H) as [H' | H']; [left; right; assumption | right; assumption].
Qed.

Lemma dict_set_in (k : PyKey) (v : PyVal) (d : dict) :
  In (k, v) (dict_set k v d).
Proof.
  induction d as [|[k0 v0] d IH]; simpl; [left; reflexivity |].
  destruct (key_eqb k k0) eqn:E; simpl.
  - apply key_eqb_eq in E. subst k0. left. reflexivity.
  - right. assumption.
Qed.

Lemma dict_set_kept (k : PyKey) (v : PyVal) (d : dict) (item : PyKey * PyVal) :
  In item d -> fst item <> k -> In item (dict_set k v d).
Proof.
  induction d as [|[k0 v0] d IH]; simpl; [contradiction |].
  intros [H | H] Hne.
  - subst item. simpl in Hne.
    rewrite key_eqb_neq by (intros Heq; apply Hne; symmetry; assumption).
    left. reflexivity.
  - destruct (key_eqb k k0); simpl; right; [assumption |].
    apply IH; assumption.
Qed.

Lemma dict_set_not_empty (k : PyKey) (v : PyVal) (d : dict) :
  dict_set k v d <> [].
Proof.
  destruct d as [|[k0 v0] d]; simpl; [discriminate |].
  destruct (key_eqb k k0); discriminate.
Qed.

(** No required field is named like a collection. *)
Lemma expected_keys_not_collections (k coll : string) :
  In k expected_keys -> In coll collections -> KStr k <> KStr coll.
Proof.
  intros Hk Hc Heq. inversion Heq as [Hs]. subst coll.
  simpl in Hk, Hc.
  repeat (destruct Hk as [Hk | Hk];
          [subst k;
           repeat (destruct Hc as [Hc | Hc]; [discriminate Hc |]);
           contradiction |]).
  contradiction.
Qed.

(* ================================================================== *)
(** * The verdict of the buildinfo test, as a whole *)

Lemma asserts_at_other_line (lines : list nat) (r : res unit) (n : nat) :
  asserts_at lines r -> ~ In n lines -> r <> Raise (AssertionError n).
Proof.
  intros [H | [line [Hl H]]] Hn Heq; rewrite H in Heq.
  - discriminate Heq.
  - inversion Heq. subst. contradiction.
Qed.

Lemma forallb_false_exists {A} (f : A -> bool) (l : list A) :
  forallb f l = false <-> exists x, In x l /\ f x = false.
Proof.
  induction l as [|x l IH]; simpl.
  - split; [discriminate | intros [x [[] _]]].
  - rewrite andb_false_iff, IH. split.
    + intros [H | [y [Hy H]]]; [exists x; auto | exists y; auto].
    + intros [y [[<- | Hy] H]]; [left; assumption | right; exists y; auto].
Qed.

Lemma dict_mem_false (k : PyKey) (d : dict) :
  dict_mem k d = false <-> dict_get k d = None.
Proof.
  unfold dict_mem. destruct (dict_get k d); split; congruence.
Qed.

(** The checks of a [dict], split at line 45: a missing required key fails
    there, and otherwise the rest fails, if at all, at a later line. *)
Lemma check_info_dict_cases (info : dict) :
  (issubset expected_keys (map fst info) = false /\
   check_info (PDict info) = Raise (AssertionError 45)) \/
  (issubset expected_keys (map fst info) = true /\
   asserts_at (47 :: 48 :: collection_lines) (check_info (PDict info))).
Proof.
  unfold check_info, required_fields, required_fields_in.
  cbn [assertIsInstance isinstance type_of type_eqb orb rbind py_keys].
  unfold assertTrue. cbn [truthy].
  destruct (issubset expected_keys (map fst info)) eqn:E; cbn [rbind].
  - right. split; [reflexivity |].
    rewrite issubset_mem in E. rewrite forallb_forall in E.
    apply asserts_at_bind.
    + apply asserts_at_incl with (lines := [47; 48]).
      * intros x [<- | [<- | []]]; simpl; tauto.
      * apply for_each_asserts. intros k Hk.
        apply check_field_asserts. apply E. assumption.
    + apply asserts_at_incl with (lines := collection_lines).
      * intros x Hx. do 2 right. assumption.
      * apply for_each_asserts. intros coll _. apply check_collection_asserts.
  - left. split; reflexivity.
Qed.

(** The test passes exactly on a mapping whose eight required fields are
    non-empty strings and whose two collections are non-empty mappings of
    accepted entries; a value that is not a [dict] never passes. *)
Theorem test_passes_iff (m : PyModule) (v : PyVal) :
  call_buildinfo m = Ok v ->
  (test_buildinfo_reports_metadata m = Ok tt <->
   exists info,
     v = PDict info /\
     (forall k, In k expected_keys -> field_ok info k) /\
     (forall coll, In coll collections -> collection_ok info coll)).
Proof.
  intros Hcall. rewrite (test_buildinfo_returns m v Hcall).
  destruct v as [| b | z | s | l | info];
    try (split; [intros H; discriminate H
                | intros [info [H _]]; discriminate H]).
  rewrite check_info_ok. split.
  - intros H. exists info. split; [reflexivity | assumption].
  - intros [info' [Heq H]]. inversion Heq. subst info'. assumption.
Qed.

Lemma test_passes_iff_witness :
  exists info,
    PDict sample_info = PDict info /\
    (forall k, In k expected_keys -> field_ok info k) /\
    (forall coll, In coll collections -> collection_ok info coll).
Proof.
  apply (proj1 (test_passes_iff (binding (PDict sample_info) greeting)
                                (PDict sample_info) eq_refl)).
  reflexivity.
Defined.

(** The line of the failed assertion tells what is wrong: the test fails at
    line 32 exactly when [buildinfo()] did not return a [dict], and at line
    45 exactly when the [dict] lacks one of the eight required keys,
    whatever else it holds. *)
Theorem failure_line_tells_cause (m : PyModule) (v : PyVal) :
  call_buildinfo m = Ok v ->
  (test_buildinfo_reports_metadata m = Raise (AssertionError 32) <->
   forall info, v <> PDict info) /\
  (forall info,
      v = PDict info ->
      (test_buildinfo_reports_metadata m = Raise (AssertionError 45) <->
       exists k, In k expected_keys /\ dict_get (KStr k) info = None)).
Proof.
  intros Hcall. rewrite (test_buildinfo_returns m v Hcall). split.
  - destruct v as [| b | z | s | l | info];
      try (split; [intros _ info H; discriminate H | intros _; reflexivity]).
    split.
    + intros H. exfalso.
      destruct (check_info_dict_cases info) as [[_ H45] | [_ Hrest]].
      * rewrite H45 in H. discriminate H.
      * revert H. apply asserts_at_other_line with (1 := Hrest).
        unfold collection_lines, entry_lines. simpl. intuition discriminate.
    + intros H. exfalso. apply (H info). reflexivity.
  - intros info ->.
    destruct (check_info_dict_cases info) as [[Hsub H45] | [Hsub Hrest]].
    + rewrite H45. split; [intros _ | reflexivity].
      rewrite issubset_mem in Hsub. apply forallb_false_exists in Hsub.
      destruct Hsub as [k [Hk Hmem]]. exists k. split; [assumption |].
      apply dict_mem_false. assumption.
    + split.
      * intros H. exfalso. revert H.
        apply asserts_at_other_line with (1 := Hrest).
        unfold collection_lines, entry_lines. simpl. intuition discriminate.
      * intros [k [Hk Hnone]]. exfalso.
        rewrite issubset_mem in Hsub. rewrite forallb_forall in Hsub.
        specialize (Hsub k Hk). apply dict_mem_false in Hnone. congruence.
Qed.

Lemma failure_line_tells_cause_witness :
  test_buildinfo_reports_metadata
    (binding (PDict (rev (tl sample_info))) greeting)
  = Raise (AssertionError 45).
Proof.
  apply (proj2 (proj2 (failure_line_tells_cause
                         (binding (PDict (rev (tl sample_info))) greeting)
                         (PDict (rev (tl sample_info))) eq_refl)
                      (rev (tl sample_info)) eq_refl)).
  exists "generator". split; [left; reflexivity | reflexivity].
Defined.

(* ================================================================== *)
(** * The order of items, and adding an entry *)

(** The checks read the mapping through lookups only, whatever the order
    in which [expected_keys] is iterated. *)
Lemma check_info_in_agree (order : list string) (d1 d2 : dict) :
  (forall k, dict_get k d1 = dict_get k d2) ->
  check_info_in order (PDict d1) = check_info_in order (PDict d2).
Proof.
  intros H. unfold check_info_in, required_fields_in.
  cbn [assertIsInstance isinstance type_of type_eqb orb rbind py_keys].
  rewrite !issubset_mem.
  rewrite (forallb_agree (fun k => dict_mem (KStr k) d1)
                         (fun k => dict_mem (KStr k) d2)).
  - rewrite (for_each_ext order (check_field (PDict d1))
                          (check_field (PDict d2))).
    + rewrite (for_each_ext collections (check_collection (PDict d1))
                            (check_collection (PDict d2))); [reflexivity |].
      intros coll _. apply check_collection_agree. apply H.
    + intros k _. apply check_field_agree. apply H.
  - intros k _. unfold dict_mem. rewrite H. reflexivity.
Qed.

(** In the order of the literal, [test_buildinfo_in] is the test as
    embedded above. *)
Lemma test_buildinfo_in_literal_order :
  test_buildinfo_in expected_keys = test_buildinfo_reports_metadata.
Proof. reflexivity. Qed.

(** Within one interpreter run, that is for one and the same order of
    iteration of the set [expected_keys], whichever it is, the outcome of
    the test, failing line included, does not depend on the order in which
    the mapping returned by [buildinfo()] lists its (distinct) top-level
    keys. *)
Theorem top_level_order_irrelevant
        (order : list string) (m1 m2 : PyModule) (d1 d2 : dict) :
  call_buildinfo m1 = Ok (PDict d1) ->
  call_buildinfo m2 = Ok (PDict d2) ->
  NoDup (map fst d1) ->
  Permutation d1 d2 ->
  test_buildinfo_in order m1 = test_buildinfo_in order m2.
Proof.
  intros H1 H2 Hnd Hp. unfold test_buildinfo_in. rewrite H1, H2.
  cbn [rbind]. apply check_info_in_agree.
  intros k. apply dict_get_perm; assumption.
Qed.

Lemma key_eqb_dec (a b : PyKey) : {a = b} + {a <> b}.
Proof.
  destruct (key_eqb a b) eqn:E.
  - left. apply key_eqb_eq. assumption.
  - right. intros H. apply key_eqb_eq in H. congruence.
Defined.

Lemma top_level_order_irrelevant_witness :
  test_buildinfo_in (rev expected_keys)
                    (binding (PDict (tl sample_info)) greeting)
  = test_buildinfo_in (rev expected_keys)
                      (binding (PDict (rev (tl sample_info))) greeting).
Proof.
  apply (top_level_order_irrelevant
           (rev expected_keys)
           (binding (PDict (tl sample_info)) greeting)
           (binding (PDict (rev (tl sample_info))) greeting)
           (tl sample_info) (rev (tl sample_info)) eq_refl eq_refl).
  - apply (NoDup_count_occ' key_eqb_dec). intros k Hk. simpl in Hk.
    repeat (destruct Hk as [<- | Hk]; [reflexivity |]). contradiction.
  - apply Permutation_rev.
Defined.

(** Whether the test passes does not depend on the order of the entries
    inside [build_options] and [detected_environment]: two mappings with
    the same required fields and the same entries, listed in any order,
    pass or fail together. *)
Theorem entry_order_irrelevant (m1 m2 : PyModule) (d1 d2 : dict) :
  call_buildinfo m1 = Ok (PDict d1) ->
  call_buildinfo m2 = Ok (PDict d2) ->
  (forall k, In k expected_keys ->
             dict_get (KStr k) d1 = dict_get (KStr k) d2) ->
  (forall coll, In coll collections ->
     exists items1 items2,
       dict_get (KStr coll) d1 = Some (PDict items1) /\
       dict_get (KStr coll) d2 = Some (PDict items2) /\
       Permutation items1 items2) ->
  (test_buildinfo_reports_metadata m1 = Ok tt <->
   test_buildinfo_reports_metadata m2 = Ok tt).
Proof.
  intros H1 H2 Hfields Hcolls.
  rewrite (test_buildinfo_returns m1 _ H1), (test_buildinfo_returns m2 _ H2).
  assert (Hdir : forall da db : dict,
             (forall k, In k expected_keys ->
                        dict_get (KStr k) da = dict_get (KStr k) db) ->
             (forall coll, In coll collections ->
                exists ia ib,
                  dict_get (KStr coll) da = Some (PDict ia) /\
                  dict_get (KStr coll) db = Some (PDict ib) /\
                  Permutation ia ib) ->
             check_info (PDict da) = Ok tt -> check_info (PDict db) = Ok tt).
  { intros da db Hf Hc Hok. apply check_info_ok in Hok.
    destruct Hok as [Hfa Hca]. apply check_info_ok. split.
    - intros k Hk. destruct (Hfa k Hk) as [s [Hs Hne]].
      exists s. split; [rewrite <- (Hf k Hk); assumption | assumption].
    - intros coll Hcoll.
      destruct (Hc coll Hcoll) as [ia [ib [Ha [Hb Hperm]]]].
      destruct (Hca coll Hcoll) as [items [Hget [Hne Hall]]].
      rewrite Ha in Hget. inversion Hget. subst items.
      exists ib. split; [assumption |]. split.
      + intros Hnil. subst ib. apply Permutation_sym in Hperm.
        apply Permutation_nil in Hperm. apply Hne. assumption.
      + intros name md Hin. apply Hall.
        apply Permutation_in with (l := ib); [symmetry |]; assumption. }
  split; apply Hdir; try assumption.
  - intros k Hk. symmetry. apply Hfields. assumption.
  - intros coll Hcoll.
    destruct (Hcolls coll Hcoll) as [i1 [i2 [Ha [Hb Hperm]]]].
    exists i2, i1. split; [assumption |]. split; [assumption |].
    symmetry. assumption.
Qed.

(** [sample_info] with two entries in [build_options], in the given order. *)
Definition sample_with_two_options (first second : string) : dict :=
  dict_set (KStr "build_options")
           (PDict [ (KStr first, metadata_record "ON" "");
                    (KStr second, metadata_record "ON" "") ])
           sample_info.

Lemma entry_order_irrelevant_witness :
  test_buildinfo_reports_metadata
    (binding (PDict (sample_with_two_options "UNI20_A" "UNI20_B")) greeting)
  = Ok tt <->
  test_buildinfo_reports_metadata
    (binding (PDict (sample_with_two_options "UNI20_B" "UNI20_A")) greeting)
  = Ok tt.
Proof.
  apply (entry_order_irrelevant
           (binding (PDict (sample_with_two_options "UNI20_A" "UNI20_B")) greeting)
           (binding (PDict (sample_with_two_options "UNI20_B" "UNI20_A")) greeting)
           (sample_with_two_options "UNI20_A" "UNI20_B")
           (sample_with_two_options "UNI20_B" "UNI20_A") eq_refl eq_refl).
  - intros k Hk. simpl in Hk.
    repeat (destruct Hk as [<- | Hk]; [reflexivity |]). contradiction.
  - intros coll Hcoll. simpl in Hcoll.
    destruct Hcoll as [<- | [<- | []]].
    + eexists. eexists. split; [reflexivity |]. split; [reflexivity |].
      apply perm_swap.
    + eexists. eexists. split; [reflexivity |]. split; [reflexivity |].
      apply Permutation_refl.
Defined.

(** Adding or rebinding one entry [name : metadata] in a collection of a
    mapping that passes gives a mapping that passes if and only if lines
    56-62 accept the new entry. *)
Theorem adding_an_entry
        (m m' : PyModule) (info items : dict) (coll : string)
        (name : PyKey) (metadata : PyVal) :
  call_buildinfo m = Ok (PDict info) ->
  test_buildinfo_reports_metadata m = Ok tt ->
  In coll collections ->
  dict_get (KStr coll) info = Some (PDict items) ->
  call_buildinfo m' =
    Ok (PDict (dict_set (KStr coll) (PDict (dict_set name metadata items)) info)) ->
  (test_buildinfo_reports_metadata m' = Ok tt <-> entry_ok name metadata).
Proof.
  intros Hcall Hpass Hcoll Hget Hcall'.
  rewrite (test_buildinfo_returns m _ Hcall) in Hpass.
  rewrite (test_buildinfo_returns m' _ Hcall').
  apply check_info_ok in Hpass. destruct Hpass as [Hfields Hcolls].
  rewrite check_info_ok. split.
  - intros [_ Hc]. destruct (Hc coll Hcoll) as [items' [Hget' [_ Hall]]].
    rewrite dict_get_set_same in Hget'. inversion Hget'. subst items'.
    apply Hall. apply dict_set_in.
  - intros Hentry. split.
    + intros k Hk. destruct (Hfields k Hk) as [s [Hs Hne]].
      exists s. split; [| assumption].
      rewrite dict_get_set_other; [assumption |].
      apply expected_keys_not_collections; assumption.
    + intros coll' Hcoll'.
      destruct (String.eqb_spec coll' coll) as [-> | Hneq].
      * exists (dict_set name metadata items).
        split; [apply dict_get_set_same |].
        split; [apply dict_set_not_empty |].
        intros n md Hin. apply in_dict_set in Hin.
        destruct Hin as [Hin | Heq].
        -- destruct (Hcolls coll Hcoll) as [items' [Hget' [_ Hall]]].
           rewrite Hget in Hget'. inversion Hget'. subst items'.
           apply Hall. assumption.
        -- inversion Heq. subst. assumption.
      * destruct (Hcolls coll' Hcoll') as [items' [Hget' Hrest]].
        exists items'. split; [| assumption].
        rewrite dict_get_set_other; [assumption |].
        intros Heq. inversion Heq. contradiction.
Qed.

Lemma adding_an_entry_witness :
  test_buildinfo_reports_metadata
    (binding
       (PDict (dict_set (KStr "detected_environment")
                        (PDict (dict_set (KStr "HDF5_VERSION")
                                         (metadata_record "1.14.3" "")
                                         [ (KStr "BLAS_VENDOR",
                                            metadata_record "" "BLAS implementation that was found") ]))
                        sample_info))
       greeting) = Ok tt <->
  entry_ok (KStr "HDF5_VERSION") (metadata_record "1.14.3" "").
Proof.
  apply (adding_an_entry
           (binding (PDict sample_info) greeting) _ sample_info
           [ (KStr "BLAS_VENDOR",
              metadata_record "" "BLAS implementation that was found") ]
           "detected_environment"
           (KStr "HDF5_VERSION") (metadata_record "1.14.3" "")
           eq_refl eq_refl).
  - right. left. reflexivity.
  - reflexivity.
  - reflexivity.
Defined.

(* ================================================================== *)
(** * Running a loader a second time *)

Lemma load_module_leaves_short_argv (name : string) (env : Env) (st : State) :
  List.length (argv (snd (load_module_of name env st))) < 2.
Proof.
  destruct (Nat.lt_ge_cases (List.length (argv st)) 2) as [Hlt | Hge].
  - rewrite (load_module_skip name env st Hlt). assumption.
  - destruct (argv st) as [|a0 [|a1 rest]] eqn:Hargv; simpl in Hge; try lia.
    rewrite (load_module_run name env st a0 a1 rest Hargv). simpl. lia.
Qed.

(** After a run of a loader, of either harness, that raised [SkipTest] or
    that got as far as line 19 (the directory was resolved), whether its
    import then found the module or not, a further run of a loader raises
    [SkipTest] and changes nothing: the first run left [sys.argv] without
    a directory. *)
Theorem second_load_is_skipped (env : Env) (st : State) :
  TestGreet._load_module env (snd (TestBuildinfo._load_module env st))
  = (Raise (SkipTest skip_message), snd (TestBuildinfo._load_module env st)) /\
  TestBuildinfo._load_module env (snd (TestGreet._load_module env st))
  = (Raise (SkipTest skip_message), snd (TestGreet._load_module env st)) /\
  TestBuildinfo._load_module env (snd (TestBuildinfo._load_module env st))
  = (Raise (SkipTest skip_message), snd (TestBuildinfo._load_module env st)) /\
  TestGreet._load_module env (snd (TestGreet._load_module env st))
  = (Raise (SkipTest skip_message), snd (TestGreet._load_module env st)).
Proof.
  rewrite buildinfo_loader, greet_loader.
  repeat split; apply load_module_skip; apply load_module_leaves_short_argv.
Qed.

(* ================================================================== *)
(** * The test files run as scripts *)

(** A stand-in for [unittest.main()]: it prints one line per test, with
    its verdict. *)
Definition report_runner (tests : list (string * res unit)) : prog unit :=
  fun st =>
    (Ok tt,
     {| argv := argv st;
        sys_path := sys_path st;
        stdout := stdout st ++
                  map (fun t => match snd t with
                                | Ok _ => fst t ++ " ... ok"
                                | Raise (SkipTest _) => fst t ++ " ... skipped"
                                | Raise (AssertionError _) => fst t ++ " ... FAIL"
                                | Raise _ => fst t ++ " ... ERROR"
                                end) tests;
        imports := imports st |}).

Example sample_script_run :
  TestBuildinfo.run_as_script sample_env report_runner
                              (start sample_command_line)
  = (Ok tt,
     {| argv := ["test_buildinfo.py"];
        sys_path := ["/work/build/bindings/python"; "/usr/lib/python3"];
        stdout := ["test_buildinfo_reports_metadata ... ok"];
        imports := [ {| imp_name := "uni20";
                        imp_path := ["/work/build/bindings/python";
                                     "/usr/lib/python3"];
                        imp_argv := ["test_buildinfo.py"] |} ] |}).
Proof. reflexivity. Qed.

Lemma run_buildinfo_script_unfold
      (env : Env) (runner : list (string * res unit) -> prog unit) (st : State) :
  TestBuildinfo.run_as_script env runner st =
  match load_module_of "uni20" env st with
  | (Ok m, st') =>
      runner [ ("test_buildinfo_reports_metadata",
                test_buildinfo_reports_metadata m) ] st'
  | (Raise e, st') => (Raise e, st')
  end.
Proof. reflexivity. Qed.

Lemma run_greet_script_unfold
      (env : Env) (runner : list (string * res unit) -> prog unit) (st : State) :
  TestGreet.run_as_script env runner st =
  match load_module_of "uni20_python" env st with
  | (Ok m, st') =>
      runner [ ("test_greet_returns_expected_message",
                TestGreet.test_greet_returns_expected_message m) ] st'
  | (Raise e, st') => (Raise e, st')
  end.
Proof. reflexivity. Qed.

(** C4: what the code does when no directory is given.  Each test file,
    run as a script with fewer than two command-line arguments, ends at
    line 23 with the [SkipTest] that [_load_module] raised: the exception
    leaves the module body, [unittest.main()] is not reached (the outcome
    is the same whatever the runner), nothing was imported, and no test is
    run or reported as skipped. *)
Theorem skip_escapes_the_script
        (env : Env) (runner : list (string * res unit) -> prog unit)
        (st : State) :
  List.length (argv st) < 2 ->
  TestBuildinfo.run_as_script env runner st
  = (Raise (SkipTest skip_message), st) /\
  TestGreet.run_as_script env runner st
  = (Raise (SkipTest skip_message), st).
Proof.
  intros Hlen.
  rewrite run_buildinfo_script_unfold, run_greet_script_unfold.
  rewrite !(load_module_skip _ env st Hlen). split; reflexivity.
Qed.

Lemma skip_escapes_the_script_witness :
  TestBuildinfo.run_as_script sample_env report_runner
                              (start ["test_buildinfo.py"])
  = (Raise (SkipTest skip_message), start ["test_buildinfo.py"]) /\
  TestGreet.run_as_script sample_env report_runner
                          (start ["test_buildinfo.py"])
  = (Raise (SkipTest skip_message), start ["test_buildinfo.py"]).
Proof.
  apply (skip_escapes_the_script sample_env report_runner
                                 (start ["test_buildinfo.py"])).
  simpl. lia.
Defined.

(** C8 (amended): the buildinfo consumers, the example and
    [test_buildinfo.py], import the module named [uni20], and the greet
    consumer, [test_greet.py], imports a module of another name,
    [uni20_python]; each consumer calls the entry point of the very module
    it imported.  The example prints what [buildinfo] of the imported
    module returns and raises what it raises; the test handed to
    [unittest.main()] by each script checks the result of [buildinfo],
    respectively [greet], of the module that line 23 loaded. *)
Theorem consumers_import_and_call (env : Env) (st : State) :
  imported_names st (snd (Example.main env st)) = ["uni20"] /\
  imported_names st (snd (TestBuildinfo._load_module env st))
  = (if (List.length (argv st) <? 2)%nat then [] else ["uni20"]) /\
  imported_names st (snd (TestGreet._load_module env st))
  = (if (List.length (argv st) <? 2)%nat then [] else ["uni20_python"]) /\
  (forall m,
      find_module env (example_path env st) "uni20" = Some m ->
      fst (Example.main env st) = rbind (call_buildinfo m) (fun _ => Ok tt) /\
      stdout (snd (Example.main env st))
      = (stdout st ++ match call_buildinfo m with
                      | Ok v => [pformat env v]
                      | Raise _ => []
                      end)%list) /\
  (forall a0 a1 rest m runner,
      argv st = a0 :: a1 :: rest ->
      find_module env (resolve env a1 :: sys_path st) "uni20" = Some m ->
      TestBuildinfo.run_as_script env runner st
      = runner [ ("test_buildinfo_reports_metadata",
                  rbind (call_buildinfo m) check_info) ]
               (loaded_state env "uni20" a0 a1 st)) /\
  (forall a0 a1 rest m runner,
      argv st = a0 :: a1 :: rest ->
      find_module env (resolve env a1 :: sys_path st) "uni20_python" = Some m ->
      TestGreet.run_as_script env runner st
      = runner [ ("test_greet_returns_expected_message",
                  rbind (call_greet m)
                        (fun g => assertEqual 30 g (PStr "Hello from uni20!"))) ]
               (loaded_state env "uni20_python" a0 a1 st)).
Proof.
  destruct (consumers_import_by_name env st) as [Hex [Hb Hg]].
  split; [exact Hex |]. split; [exact Hb |]. split; [exact Hg |].
  split; [| split].
  - intros m Hfind. rewrite example_main_run. cbv zeta.
    unfold lookup_module. rewrite Hfind.
    destruct (call_buildinfo m) as [v|e]; simpl.
    + split; reflexivity.
    + split; [reflexivity |]. rewrite app_nil_r. reflexivity.
  - intros a0 a1 rest m runner Hargv Hfind.
    rewrite run_buildinfo_script_unfold.
    rewrite (load_module_run _ env st a0 a1 rest Hargv).
    unfold lookup_module. rewrite Hfind. reflexivity.
  - intros a0 a1 rest m runner Hargv Hfind.
    rewrite run_greet_script_unfold.
    rewrite (load_module_run _ env st a0 a1 rest Hargv).
    unfold lookup_module. rewrite Hfind. reflexivity.
Qed.

Lemma consumers_import_and_call_witness :
  TestGreet.run_as_script sample_env report_runner (start sample_command_line)
  = report_runner
      [ ("test_greet_returns_expected_message",
         rbind (call_greet (binding PNone greeting))
               (fun g => assertEqual 30 g (PStr "Hello from uni20!"))) ]
      (loaded_state sample_env "uni20_python"
                    "test_buildinfo.py" "build/bindings/python"
                    (start sample_command_line)).
Proof.
  apply (proj2 (proj2 (proj2 (proj2 (proj2
           (consumers_import_and_call sample_env
                                      (start sample_command_line))))))
           "test_buildinfo.py" "build/bindings/python" ["-v"]
           (binding PNone greeting) report_runner eq_refl eq_refl).
Defined.
